(** * Sync Gateway: the DCP stream observer, its stream events, and
      the password marshallers of sgcollect

    A shallow embedding of

    - [base/dcp_client_stream_observer.go]: the [gocbcore.StreamObserver]
      callbacks of [DCPClient];
    - the stream-event structs of package [base] and their conversion
      [asFeedEvent] to [sgbucket.FeedEvent];
    - [PasswordString] of the sgcollect tool with [GoString] and
      [MarshalText].

    Go structs are records, one module per struct so that the field names
    of the source are kept.  Unsigned machine integers are carried as [Z];
    the code only copies them.  The callbacks are effectful (they call
    [Send] on a worker and [WarnfCtx]); they are written in ExtLib's state
    monad over the sequence of those calls. *)

From Stdlib Require Import ZArith List String Ascii Lia.
From Stdlib.Strings Require Import Byte.
From ExtLib Require Import Structures.Monad Structures.MonadState.
From ExtLib Require Import Data.Monads.StateMonad.
Import ListNotations.
Import MonadNotation.
Local Open Scope monad_scope.
Local Open Scope Z_scope.

Set Implicit Arguments.

(* ------------------------------------------------------------------ *)
(** ** Go base types *)

Definition uint8 := Z.
Definition uint16 := Z.
Definition uint32 := Z.
Definition uint64 := Z.

(** [error]: [None] is Go's [nil]. *)
Definition error := option string.

(** [time.Time], as an instant on some clock. *)
Definition Time := Z.

(** [strings.Repeat(s, count)] for a non-negative count: [count] copies of
    [s], one after the other. *)
Fixpoint strings_Repeat (s : string) (count : nat) : string :=
  match count with
  | O => EmptyString
  | S n => (s ++ strings_Repeat s n)%string
  end.

(** [bytes.Repeat(b, count)] for a non-negative count. *)
Fixpoint bytes_Repeat (b : list byte) (count : nat) : list byte :=
  match count with
  | O => []
  | S n => (b ++ bytes_Repeat b n)%list
  end.

(* ------------------------------------------------------------------ *)
(** ** sgcollect: [PasswordString] *)

(** [type PasswordString string].  [len(p)] is the number of bytes of the
    string, which is [String.length] on Rocq's byte strings. *)
Definition PasswordString := string.

Definition GoString (p : PasswordString) : string :=
  strings_Repeat "*" (String.length p).

Definition MarshalText (p : PasswordString) : list byte * error :=
  (bytes_Repeat (list_byte_of_string "*") (String.length p), None).

(* ------------------------------------------------------------------ *)
(** ** External packages: the declarations the observer reads *)

(** [sgbucket]: the feed event.  The record has the fields that the
    composite literals of [asFeedEvent] name. *)
Module sgbucket.

Inductive FeedOpcode : Set :=
| FeedOpMutation
| FeedOpDeletion.

Record FeedEvent : Type := mkFeedEvent {
  Opcode : FeedOpcode;
  Flags : uint32;
  Expiry : uint32;
  CollectionID : uint32;
  Key : list byte;
  Value : list byte;
  DataType : uint8;
  Cas : uint64;
  VbNo : uint16;
  TimeReceived : Time
}.

End sgbucket.

(** [gocbcore]: the callback arguments, with the fields the callbacks read. *)
Module gocbcore.

Definition SnapshotState := uint32.

Record FailoverEntry : Type := mkFailoverEntry {
  VbUUID : uint64;
  SeqNo : uint64
}.

Module DcpSnapshotMarker.
Record t : Type := mk {
  VbID : uint16;
  StreamID : uint16;
  StartSeqNo : uint64;
  EndSeqNo : uint64;
  SnapshotType : SnapshotState
}.
End DcpSnapshotMarker.

Module DcpMutation.
Record t : Type := mk {
  SeqNo : uint64;
  Flags : uint32;
  Expiry : uint32;
  Cas : uint64;
  Datatype : uint8;
  VbID : uint16;
  CollectionID : uint32;
  StreamID : uint16;
  Key : list byte;
  Value : list byte
}.
End DcpMutation.

Module DcpDeletion.
Record t : Type := mk {
  SeqNo : uint64;
  Cas : uint64;
  Datatype : uint8;
  VbID : uint16;
  CollectionID : uint32;
  StreamID : uint16;
  Key : list byte;
  Value : list byte
}.
End DcpDeletion.

Module DcpExpiration.
Record t : Type := mk {
  VbID : uint16;
  Key : list byte
}.
End DcpExpiration.

Module DcpStreamEnd.
Record t : Type := mk {
  VbID : uint16;
  StreamID : uint16
}.
End DcpStreamEnd.

Module DcpSeqNoAdvanced.
Record t : Type := mk {
  SeqNo : uint64;
  VbID : uint16;
  StreamID : uint16
}.
End DcpSeqNoAdvanced.

End gocbcore.

(* ------------------------------------------------------------------ *)
(** ** package base: stream events *)

(** [type streamEvent interface { VbID() uint16 }], as a method set. *)
Class HasVbID (T : Type) : Type := { VbID : T -> uint16 }.

Module streamEventCommon.
Record t : Type := mk {
  vbID : uint16;
  streamID : uint16
}.
End streamEventCommon.

#[export] Instance streamEventCommon_VbID : HasVbID streamEventCommon.t :=
  {| VbID := fun sec => streamEventCommon.vbID sec |}.

(** In each event struct the embedded [streamEventCommon] is the field
    [common]; its fields and its method [VbID] are promoted. *)
Module snapshotEvent.
Record t : Type := mk {
  common : streamEventCommon.t;
  startSeq : uint64;
  endSeq : uint64;
  snapshotType : gocbcore.SnapshotState
}.
End snapshotEvent.

Module mutationEvent.
Record t : Type := mk {
  common : streamEventCommon.t;
  seq : uint64;
  flags : uint32;
  expiry : uint32;
  cas : uint64;
  datatype : uint8;
  collection : uint32;
  key : list byte;
  value : list byte
}.
End mutationEvent.

Module streamOpenEvent.
Record t : Type := mk {
  common : streamEventCommon.t;
  failoverLogs : list gocbcore.FailoverEntry
}.
End streamOpenEvent.

Module deletionEvent.
Record t : Type := mk {
  common : streamEventCommon.t;
  seq : uint64;
  cas : uint64;
  datatype : uint8;
  collection : uint32;
  key : list byte;
  value : list byte
}.
End deletionEvent.

Module endStreamEvent.
Record t : Type := mk {
  common : streamEventCommon.t;
  err : error
}.
End endStreamEvent.

Module seqnoAdvancedEvent.
Record t : Type := mk {
  common : streamEventCommon.t;
  seq : uint64
}.
End seqnoAdvancedEvent.

#[export] Instance snapshotEvent_VbID : HasVbID snapshotEvent.t :=
  {| VbID := fun e => VbID (snapshotEvent.common e) |}.
#[export] Instance mutationEvent_VbID : HasVbID mutationEvent.t :=
  {| VbID := fun e => VbID (mutationEvent.common e) |}.
#[export] Instance streamOpenEvent_VbID : HasVbID streamOpenEvent.t :=
  {| VbID := fun e => VbID (streamOpenEvent.common e) |}.
#[export] Instance deletionEvent_VbID : HasVbID deletionEvent.t :=
  {| VbID := fun e => VbID (deletionEvent.common e) |}.
#[export] Instance endStreamEvent_VbID : HasVbID endStreamEvent.t :=
  {| VbID := fun e => VbID (endStreamEvent.common e) |}.
#[export] Instance seqnoAdvancedEvent_VbID : HasVbID seqnoAdvancedEvent.t :=
  {| VbID := fun e => VbID (seqnoAdvancedEvent.common e) |}.

(** A value of interface type [streamEvent]: one of the structs that
    implement it, with its dynamic type. *)
Inductive streamEvent : Type :=
| SnapshotEvent (e : snapshotEvent.t)
| MutationEvent (e : mutationEvent.t)
| StreamOpenEvent (e : streamOpenEvent.t)
| DeletionEvent (e : deletionEvent.t)
| EndStreamEvent (e : endStreamEvent.t)
| SeqnoAdvancedEvent (e : seqnoAdvancedEvent.t).

#[export] Instance streamEvent_VbID : HasVbID streamEvent :=
  {| VbID := fun ev =>
       match ev with
       | SnapshotEvent e => VbID e
       | MutationEvent e => VbID e
       | StreamOpenEvent e => VbID e
       | DeletionEvent e => VbID e
       | EndStreamEvent e => VbID e
       | SeqnoAdvancedEvent e => VbID e
       end |}.

(** The embedded [streamEventCommon] of an event value. *)
Definition commonOf (ev : streamEvent) : streamEventCommon.t :=
  match ev with
  | SnapshotEvent e => snapshotEvent.common e
  | MutationEvent e => mutationEvent.common e
  | StreamOpenEvent e => streamOpenEvent.common e
  | DeletionEvent e => deletionEvent.common e
  | EndStreamEvent e => endStreamEvent.common e
  | SeqnoAdvancedEvent e => seqnoAdvancedEvent.common e
  end.

(** [func (e mutationEvent) asFeedEvent() sgbucket.FeedEvent].  The clock
    reading [time.Now()] is the argument [now]. *)
Definition mutationEvent_asFeedEvent (now : Time) (e : mutationEvent.t)
  : sgbucket.FeedEvent :=
  {| sgbucket.Opcode := sgbucket.FeedOpMutation;
     sgbucket.Flags := mutationEvent.flags e;
     sgbucket.Expiry := mutationEvent.expiry e;
     sgbucket.CollectionID := mutationEvent.collection e;
     sgbucket.Key := mutationEvent.key e;
     sgbucket.Value := mutationEvent.value e;
     sgbucket.DataType := mutationEvent.datatype e;
     sgbucket.Cas := mutationEvent.cas e;
     sgbucket.VbNo := streamEventCommon.vbID (mutationEvent.common e);
     sgbucket.TimeReceived := now |}.

(** [func (e deletionEvent) asFeedEvent() sgbucket.FeedEvent].  The literal
    names neither [Flags] nor [Expiry]: they keep Go's zero value. *)
Definition deletionEvent_asFeedEvent (now : Time) (e : deletionEvent.t)
  : sgbucket.FeedEvent :=
  {| sgbucket.Opcode := sgbucket.FeedOpDeletion;
     sgbucket.Flags := 0;
     sgbucket.Expiry := 0;
     sgbucket.CollectionID := deletionEvent.collection e;
     sgbucket.Key := deletionEvent.key e;
     sgbucket.Value := deletionEvent.value e;
     sgbucket.DataType := deletionEvent.datatype e;
     sgbucket.Cas := deletionEvent.cas e;
     sgbucket.VbNo := streamEventCommon.vbID (deletionEvent.common e);
     sgbucket.TimeReceived := now |}.

(** The feed event of an event value: only [mutationEvent] and
    [deletionEvent] have the method [asFeedEvent]. *)
Definition asFeedEvent (now : Time) (ev : streamEvent)
  : option sgbucket.FeedEvent :=
  match ev with
  | MutationEvent e => Some (mutationEvent_asFeedEvent now e)
  | DeletionEvent e => Some (deletionEvent_asFeedEvent now e)
  | _ => None
  end.

(* ------------------------------------------------------------------ *)
(** ** package base: logging *)

(** An argument of a log call; [UD] wraps user data for redaction. *)
Inductive LogArg : Type :=
| Uint (n : Z)
| UD (s : string).

(** One call of [WarnfCtx]: the format string and its arguments. *)
Record Warning : Type := mkWarning {
  format : string;
  args : list LogArg
}.

(* ------------------------------------------------------------------ *)
(** ** The stream observer *)

Section StreamObserver.

(** The workers of the client and [dc.workerForVbno], which the client
    defines next to its worker pool. *)
Variable Worker : Type.
Variable workerForVbno : uint16 -> Worker.

(** [dc.filteredKey].  The callbacks are embedded over the predicate they
    call; [DCPClient_filteredKey] below is the body the source gives it. *)
Variable filteredKey : list byte -> bool.

(** Arguments of the collection callbacks, which no callback inspects. *)
Variables DcpCollectionCreation DcpCollectionDeletion DcpCollectionFlush : Type.
Variables DcpScopeCreation DcpScopeDeletion : Type.
Variables DcpCollectionModification DcpOSOSnapshot : Type.

(** What a callback does to the world: the calls [w.Send(e)] it made, as
    pairs of the worker and the event, and the warnings it logged, both
    oldest first. *)
Record ObserverState : Type := mkObserverState {
  sent : list (Worker * streamEvent);
  warnings : list Warning
}.

Definition Observer : Type -> Type := state ObserverState.

(** A client that has received no callback yet. *)
Definition idle : ObserverState := {| sent := []; warnings := [] |}.

(** Modelled from the spec: [DCPWorker.Send], whose source file is not
    part of this development.  "Receives events in submission order"
    (Partition Worker, step 1): the event joins the end of what was sent. *)
Definition Send (w : Worker) (e : streamEvent) : Observer unit :=
  st <- get ;;
  put {| sent := sent st ++ [(w, e)]; warnings := warnings st |}.

(** Modelled from the spec: [WarnfCtx], whose source file is not part of
    this development.  "log as unexpected": the call is recorded. *)
Definition WarnfCtx (fmt : string) (a : list LogArg) : Observer unit :=
  st <- get ;;
  put {| sent := sent st;
         warnings := warnings st ++ [{| format := fmt; args := a |}] |}.

Import gocbcore.

Definition SnapshotMarker (snapshotMarker : DcpSnapshotMarker.t)
  : Observer unit :=
  let e := {|
    snapshotEvent.common := {|
      streamEventCommon.vbID := DcpSnapshotMarker.VbID snapshotMarker;
      streamEventCommon.streamID := DcpSnapshotMarker.StreamID snapshotMarker
    |};
    snapshotEvent.startSeq := DcpSnapshotMarker.StartSeqNo snapshotMarker;
    snapshotEvent.endSeq := DcpSnapshotMarker.EndSeqNo snapshotMarker;
    snapshotEvent.snapshotType := DcpSnapshotMarker.SnapshotType snapshotMarker
  |} in
  Send (workerForVbno (DcpSnapshotMarker.VbID snapshotMarker)) (SnapshotEvent e).

Definition Mutation (mutation : DcpMutation.t) : Observer unit :=
  if filteredKey (DcpMutation.Key mutation) then ret tt
  else
    let e := {|
      mutationEvent.common := {|
        streamEventCommon.vbID := DcpMutation.VbID mutation;
        streamEventCommon.streamID := DcpMutation.StreamID mutation
      |};
      mutationEvent.seq := DcpMutation.SeqNo mutation;
      mutationEvent.flags := DcpMutation.Flags mutation;
      mutationEvent.expiry := DcpMutation.Expiry mutation;
      mutationEvent.cas := DcpMutation.Cas mutation;
      mutationEvent.datatype := DcpMutation.Datatype mutation;
      mutationEvent.collection := DcpMutation.CollectionID mutation;
      mutationEvent.key := DcpMutation.Key mutation;
      mutationEvent.value := DcpMutation.Value mutation
    |} in
    Send (workerForVbno (DcpMutation.VbID mutation)) (MutationEvent e).

Definition Deletion (deletion : DcpDeletion.t) : Observer unit :=
  if filteredKey (DcpDeletion.Key deletion) then ret tt
  else
    let e := {|
      deletionEvent.common := {|
        streamEventCommon.vbID := DcpDeletion.VbID deletion;
        streamEventCommon.streamID := DcpDeletion.StreamID deletion
      |};
      deletionEvent.seq := DcpDeletion.SeqNo deletion;
      deletionEvent.cas := DcpDeletion.Cas deletion;
      deletionEvent.datatype := DcpDeletion.Datatype deletion;
      deletionEvent.collection := DcpDeletion.CollectionID deletion;
      deletionEvent.key := DcpDeletion.Key deletion;
      deletionEvent.value := DcpDeletion.Value deletion
    |} in
    Send (workerForVbno (DcpDeletion.VbID deletion)) (DeletionEvent e).

Definition End (end_ : DcpStreamEnd.t) (err : error) : Observer unit :=
  let e := {|
    endStreamEvent.common := {|
      streamEventCommon.vbID := DcpStreamEnd.VbID end_;
      streamEventCommon.streamID := DcpStreamEnd.StreamID end_
    |};
    endStreamEvent.err := err
  |} in
  Send (workerForVbno (DcpStreamEnd.VbID end_)) (EndStreamEvent e).

Definition Expiration (expiration : DcpExpiration.t) : Observer unit :=
  WarnfCtx "Unexpected DCP expiration event (vb:%d) for key %v"
    [Uint (DcpExpiration.VbID expiration);
     UD (string_of_list_byte (DcpExpiration.Key expiration))].

Definition CreateCollection (creation : DcpCollectionCreation)
  : Observer unit := ret tt.

Definition DeleteCollection (deletion : DcpCollectionDeletion)
  : Observer unit := ret tt.

Definition FlushCollection (flush : DcpCollectionFlush)
  : Observer unit := ret tt.

Definition CreateScope (creation : DcpScopeCreation)
  : Observer unit := ret tt.

Definition DeleteScope (deletion : DcpScopeDeletion)
  : Observer unit := ret tt.

Definition ModifyCollection (modification : DcpCollectionModification)
  : Observer unit := ret tt.

Definition OSOSnapshot (snapshot : DcpOSOSnapshot)
  : Observer unit := ret tt.

Definition SeqNoAdvanced (seqNoAdvanced : DcpSeqNoAdvanced.t)
  : Observer unit :=
  Send (workerForVbno (DcpSeqNoAdvanced.VbID seqNoAdvanced))
    (SeqnoAdvancedEvent {|
       seqnoAdvancedEvent.common := {|
         streamEventCommon.vbID := DcpSeqNoAdvanced.VbID seqNoAdvanced;
         streamEventCommon.streamID := DcpSeqNoAdvanced.StreamID seqNoAdvanced
       |};
       seqnoAdvancedEvent.seq := DcpSeqNoAdvanced.SeqNo seqNoAdvanced
     |}).

(** The transport's side of the [gocbcore.StreamObserver] interface: one
    constructor per method, and the delivery of a callback to the client. *)
Inductive Callback : Type :=
| OnSnapshotMarker (m : DcpSnapshotMarker.t)
| OnMutation (m : DcpMutation.t)
| OnDeletion (d : DcpDeletion.t)
| OnEnd (e : DcpStreamEnd.t) (err : error)
| OnExpiration (x : DcpExpiration.t)
| OnCreateCollection (c : DcpCollectionCreation)
| OnDeleteCollection (c : DcpCollectionDeletion)
| OnFlushCollection (c : DcpCollectionFlush)
| OnCreateScope (c : DcpScopeCreation)
| OnDeleteScope (c : DcpScopeDeletion)
| OnModifyCollection (c : DcpCollectionModification)
| OnOSOSnapshot (s : DcpOSOSnapshot)
| OnSeqNoAdvanced (a : DcpSeqNoAdvanced.t).

Definition deliver (cb : Callback) : Observer unit :=
  match cb with
  | OnSnapshotMarker m => SnapshotMarker m
  | OnMutation m => Mutation m
  | OnDeletion d => Deletion d
  | OnEnd e err => End e err
  | OnExpiration x => Expiration x
  | OnCreateCollection c => CreateCollection c
  | OnDeleteCollection c => DeleteCollection c
  | OnFlushCollection c => FlushCollection c
  | OnCreateScope c => CreateScope c
  | OnDeleteScope c => DeleteScope c
  | OnModifyCollection c => ModifyCollection c
  | OnOSOSnapshot s => OSOSnapshot s
  | OnSeqNoAdvanced a => SeqNoAdvanced a
  end.

(** The callbacks of a whole session, in the order the transport makes
    them. *)
Fixpoint deliverAll (cbs : list Callback) : Observer unit :=
  match cbs with
  | [] => ret tt
  | cb :: rest => deliver cb ;; deliverAll rest
  end.

(** The key of a document event. *)
Definition keyOf (ev : streamEvent) : option (list byte) :=
  match ev with
  | MutationEvent e => Some (mutationEvent.key e)
  | DeletionEvent e => Some (deletionEvent.key e)
  | _ => None
  end.

(** The state after one more [Send]. *)
Definition afterSend (st : ObserverState) (w : Worker) (ev : streamEvent)
  : ObserverState :=
  {| sent := sent st ++ [(w, ev)]; warnings := warnings st |}.

(** An entry of [sent] went to the worker of its event's partition. *)
Definition routed (c : Worker * streamEvent) : Prop :=
  fst c = workerForVbno (VbID (snd c)).

(** An entry of [sent] is not a document event with a filtered key. *)
Definition unfiltered (c : Worker * streamEvent) : Prop :=
  forall key, keyOf (snd c) = Some key -> filteredKey key = false.

(** Snapshot, stream-end and seqno-advanced events, and the callbacks
    that announce them. *)
Definition isControlEvent (ev : streamEvent) : bool :=
  match ev with
  | SnapshotEvent _ | EndStreamEvent _ | SeqnoAdvancedEvent _ => true
  | _ => false
  end.

Definition isControlCallback (cb : Callback) : bool :=
  match cb with
  | OnSnapshotMarker _ | OnEnd _ _ | OnSeqNoAdvanced _ => true
  | _ => false
  end.

(** How many control events were sent. *)
Definition controlsSent (st : ObserverState) : nat :=
  List.length (filter (fun c => isControlEvent (snd c)) (sent st)).

End StreamObserver.

(** [func (dc *DCPClient) filteredKey(key []byte) bool]. *)
Definition DCPClient_filteredKey (key : list byte) : bool := false.

Arguments idle {Worker}.
Arguments Expiration {Worker} expiration.
Arguments isControlCallback {_ _ _ _ _ _ _} cb.
Arguments WarnfCtx {Worker} fmt a.
Arguments CreateCollection {Worker DcpCollectionCreation} creation.
Arguments DeleteCollection {Worker DcpCollectionDeletion} deletion.
Arguments FlushCollection {Worker DcpCollectionFlush} flush.
Arguments CreateScope {Worker DcpScopeCreation} creation.
Arguments DeleteScope {Worker DcpScopeDeletion} deletion.
Arguments ModifyCollection {Worker DcpCollectionModification} modification.
Arguments OSOSnapshot {Worker DcpOSOSnapshot} snapshot.
Arguments OnSnapshotMarker {_ _ _ _ _ _ _} m.
Arguments OnMutation {_ _ _ _ _ _ _} m.
Arguments OnDeletion {_ _ _ _ _ _ _} d.
Arguments OnEnd {_ _ _ _ _ _ _} e err.
Arguments OnExpiration {_ _ _ _ _ _ _} x.
Arguments OnCreateCollection {_ _ _ _ _ _ _} c.
Arguments OnDeleteCollection {_ _ _ _ _ _ _} c.
Arguments OnFlushCollection {_ _ _ _ _ _ _} c.
Arguments OnCreateScope {_ _ _ _ _ _ _} c.
Arguments OnDeleteScope {_ _ _ _ _ _ _} c.
Arguments OnModifyCollection {_ _ _ _ _ _ _} c.
Arguments OnOSOSnapshot {_ _ _ _ _ _ _} s.
Arguments OnSeqNoAdvanced {_ _ _ _ _ _ _} a.

(* ------------------------------------------------------------------ *)
(** ** Sample data *)

(** The bytes of a string literal, as [[]byte("...")]. *)
Definition bytesOf (s : string) : list byte := list_byte_of_string s.

(** An exclusion rule for internal metadata keys: the key starts with
    ["_sync:"]. *)
Definition syncPrefixFilter (key : list byte) : bool :=
  prefix "_sync:" (string_of_list_byte key).

(** Modelled from the spec: [dc.workerForVbno], which the client defines
    with its worker pool outside the files embedded here.  "number of
    concurrent workers; partitions sharded p mod W": the workers are
    indexed from zero. *)
Definition shardedWorker (W : Z) (vbNo : uint16) : Z := vbNo mod W.

Definition sampleMutation (s : uint64) (k : string) : gocbcore.DcpMutation.t :=
  {| gocbcore.DcpMutation.SeqNo := s;
     gocbcore.DcpMutation.Flags := 33554432;
     gocbcore.DcpMutation.Expiry := 1767225600;
     gocbcore.DcpMutation.Cas := 1700000000000000000;
     gocbcore.DcpMutation.Datatype := 1;
     gocbcore.DcpMutation.VbID := 513;
     gocbcore.DcpMutation.CollectionID := 8;
     gocbcore.DcpMutation.StreamID := 2;
     gocbcore.DcpMutation.Key := bytesOf k;
     gocbcore.DcpMutation.Value := bytesOf "{}" |}.

Definition sampleDeletion (s : uint64) (k : string) : gocbcore.DcpDeletion.t :=
  {| gocbcore.DcpDeletion.SeqNo := s;
     gocbcore.DcpDeletion.Cas := 1700000000000000001;
     gocbcore.DcpDeletion.Datatype := 0;
     gocbcore.DcpDeletion.VbID := 513;
     gocbcore.DcpDeletion.CollectionID := 8;
     gocbcore.DcpDeletion.StreamID := 2;
     gocbcore.DcpDeletion.Key := bytesOf k;
     gocbcore.DcpDeletion.Value := [] |}.

Definition sampleMutationEvent (s : uint64) (k : string) : mutationEvent.t :=
  {| mutationEvent.common :=
       {| streamEventCommon.vbID := 513; streamEventCommon.streamID := 2 |};
     mutationEvent.seq := s;
     mutationEvent.flags := 33554432;
     mutationEvent.expiry := 1767225600;
     mutationEvent.cas := 1700000000000000000;
     mutationEvent.datatype := 1;
     mutationEvent.collection := 8;
     mutationEvent.key := bytesOf k;
     mutationEvent.value := bytesOf "{}" |}.

Definition sampleDeletionEvent (s : uint64) (k : string) : deletionEvent.t :=
  {| deletionEvent.common :=
       {| streamEventCommon.vbID := 513; streamEventCommon.streamID := 2 |};
     deletionEvent.seq := s;
     deletionEvent.cas := 1700000000000000001;
     deletionEvent.datatype := 0;
     deletionEvent.collection := 8;
     deletionEvent.key := bytesOf k;
     deletionEvent.value := [] |}.

(** A session in which no collection callback carries data. *)
Definition SimpleCallback : Type := Callback unit unit unit unit unit unit unit.

Definition sampleSession : list SimpleCallback :=
  [ OnSnapshotMarker
      {| gocbcore.DcpSnapshotMarker.VbID := 513;
         gocbcore.DcpSnapshotMarker.StreamID := 2;
         gocbcore.DcpSnapshotMarker.StartSeqNo := 0;
         gocbcore.DcpSnapshotMarker.EndSeqNo := 10;
         gocbcore.DcpSnapshotMarker.SnapshotType := 1 |};
    OnMutation (sampleMutation 1 "a");
    OnMutation (sampleMutation 2 "_sync:x");
    OnDeletion (sampleDeletion 3 "b");
    OnEnd {| gocbcore.DcpStreamEnd.VbID := 513;
             gocbcore.DcpStreamEnd.StreamID := 2 |} None ].

(* ------------------------------------------------------------------ *)
(** ** Views of a session *)

(** The results of [f] on a list, in order, where it has one. *)
Fixpoint collect {A B : Type} (f : A -> option B) (l : list A) : list B :=
  match l with
  | [] => []
  | x :: rest =>
      match f x with
      | Some y => y :: collect f rest
      | None => collect f rest
      end
  end.

(** The partition and seq of an event that has a seq. *)
Definition partitionSeqOf (ev : streamEvent) : option (uint16 * uint64) :=
  match ev with
  | MutationEvent e => Some (VbID e, mutationEvent.seq e)
  | DeletionEvent e => Some (VbID e, deletionEvent.seq e)
  | SeqnoAdvancedEvent e => Some (VbID e, seqnoAdvancedEvent.seq e)
  | _ => None
  end.

Definition isStreamOpenEvent (ev : streamEvent) : bool :=
  match ev with
  | StreamOpenEvent _ => true
  | _ => false
  end.

Section SessionViews.

Variable filteredKey : list byte -> bool.
Variables DcpCollectionCreation DcpCollectionDeletion DcpCollectionFlush : Type.
Variables DcpScopeCreation DcpScopeDeletion : Type.
Variables DcpCollectionModification DcpOSOSnapshot : Type.

Let Cb := Callback DcpCollectionCreation DcpCollectionDeletion
            DcpCollectionFlush DcpScopeCreation DcpScopeDeletion
            DcpCollectionModification DcpOSOSnapshot.

(** The partition and seq that a callback of the transport carries past
    the key filter. *)
Definition announcedSeq (cb : Cb) : option (uint16 * uint64) :=
  match cb with
  | OnMutation m =>
      if filteredKey (gocbcore.DcpMutation.Key m) then None
      else Some (gocbcore.DcpMutation.VbID m, gocbcore.DcpMutation.SeqNo m)
  | OnDeletion d =>
      if filteredKey (gocbcore.DcpDeletion.Key d) then None
      else Some (gocbcore.DcpDeletion.VbID d, gocbcore.DcpDeletion.SeqNo d)
  | OnSeqNoAdvanced a =>
      Some (gocbcore.DcpSeqNoAdvanced.VbID a, gocbcore.DcpSeqNoAdvanced.SeqNo a)
  | _ => None
  end.

(** The callbacks whose method body contains a [Send]. *)
Definition dispatches (cb : Cb) : bool :=
  match cb with
  | OnSnapshotMarker _ | OnMutation _ | OnDeletion _ | OnEnd _ _
  | OnSeqNoAdvanced _ => true
  | _ => false
  end.

Definition isExpiration (cb : Cb) : bool :=
  match cb with
  | OnExpiration _ => true
  | _ => false
  end.

End SessionViews.

Arguments dispatches {_ _ _ _ _ _ _} cb.
Arguments isExpiration {_ _ _ _ _ _ _} cb.
Arguments announcedSeq filteredKey {_ _ _ _ _ _ _} cb.

(* ------------------------------------------------------------------ *)
(** ** sgcollect: options, HTTP client, discovery, archive names *)

(** [strings.HasSuffix(s, suffix)]:
    [len(s) >= len(suffix) && s[len(s)-len(suffix):] == suffix]. *)
Definition strings_HasSuffix (s suffix : string) : bool :=
  ((String.length suffix <=? String.length s)%nat &&
   String.eqb
     (substring (String.length s - String.length suffix)
        (String.length suffix) s)
     suffix)%bool.

(** [strings.TrimSuffix(s, suffix)]: [s[:len(s)-len(suffix)]] when [s]
    has the suffix, and [s] otherwise. *)
Definition strings_TrimSuffix (s suffix : string) : string :=
  if strings_HasSuffix s suffix
  then substring 0 (String.length s - String.length suffix) s
  else s.

Definition LogRedactionLevel := string.
Definition RedactNone : LogRedactionLevel := "none"%string.
Definition RedactPartial : LogRedactionLevel := "partial"%string.

(** [url.URL], with the fields this code reads or writes. *)
Module URL.
Record t : Type := mk {
  Scheme : string;
  Host : string;
  Path : string
}.
End URL.

(** [*url.URL] fields are [option]s, [None] for [nil]; [time.Duration] is
    a count of nanoseconds. *)
Module SGCollectOptions.
Record t : Type := mk {
  OutputPath : string;
  RootDir : string;
  LogRedactionLevel : LogRedactionLevel;
  LogRedactionSalt : PasswordString;
  SyncGatewayURL : option URL.t;
  SyncGatewayConfig : string;
  SyncGatewayExecutable : string;
  SyncGatewayUsername : string;
  SyncGatewayPassword : PasswordString;
  HTTPTimeout : Z;
  TmpDir : string;
  UploadHost : option URL.t;
  UploadCustomer : string;
  UploadTicketNumber : string;
  UploadProxy : option URL.t
}.
End SGCollectOptions.

(** [http.Client], with the field [getHTTPClient] sets. *)
Record Client : Type := mkClient {
  Timeout : Z
}.

(** The package variables [httpClient] and [httpClientInit]; of the
    [sync.Once] the state is whether [Do] has run its function. *)
Record ClientVars : Type := mkClientVars {
  httpClient : option Client;
  httpClientInit : bool
}.

(** The variables when the program starts. *)
Definition clientVarsAtStart : ClientVars :=
  {| httpClient := None; httpClientInit := false |}.

(** [httpClientInit.Do(f)]: [f] runs unless a call of [Do] ran before. *)
Definition httpClientInit_Do (f : state ClientVars unit)
  : state ClientVars unit :=
  vars <- get ;;
  if httpClientInit vars then ret tt
  else
    f ;;
    vars' <- get ;;
    put {| httpClient := httpClient vars'; httpClientInit := true |}.

Definition getHTTPClient (opts : SGCollectOptions.t)
  : state ClientVars (option Client) :=
  httpClientInit_Do
    (vars <- get ;;
     put {| httpClient :=
              Some {| Timeout := SGCollectOptions.HTTPTimeout opts |};
            httpClientInit := httpClientInit vars |}) ;;
  vars <- get ;;
  ret (httpClient vars).

(** [getHTTPClient] called once for each of a list of options. *)
Fixpoint getHTTPClientEach (optss : list SGCollectOptions.t)
  : state ClientVars (list (option Client)) :=
  match optss with
  | [] => ret []
  | opts :: rest =>
      c <- getHTTPClient opts ;;
      cs <- getHTTPClientEach rest ;;
      ret (c :: cs)
  end.

(** The struct that [findSGBinaryAndConfigsFromExpvars] decodes into. *)
Record Expvars : Type := mkExpvars {
  CmdLine : list string
}.

(** The loop of [findSGBinaryAndConfigsFromExpvars] over [CmdLine[1:]]:
    [config] becomes the first argument that ends in [".json"] and the
    loop breaks; [config] is what it was when no argument does. *)
Fixpoint configAmong (args : list string) (config : string) : string :=
  match args with
  | [] => config
  | arg :: rest =>
      if strings_HasSuffix arg ".json" then arg else configAmong rest config
  end.

(** [findSGBinaryAndConfigsFromExpvars] from the decoded [expvars] on:
    what it returns for a command line. *)
Definition fromCmdLine (cmdLine : list string) : string * string * bool :=
  match cmdLine with
  | [] => (""%string, ""%string, false)
  | binary :: rest =>
      let config := configAmong rest "" in
      (binary, config, negb (String.eqb config ""))
  end.

Definition sgBinPaths : list string :=
  [ "/opt/couchbase-sync-gateway/bin/sync_gateway";
    "C:\Program Files (x86)\Couchbase\sync_gateway.exe";
    "C:\Program Files\Couchbase\Sync Gateway\sync_gateway.exe";
    "./sync_gateway" ]%string.

Definition bootstrapConfigLocations : list string :=
  [ "/home/sync_gateway/sync_gateway.json";
    "/opt/couchbase-sync-gateway/etc/sync_gateway.json";
    "/opt/sync_gateway/etc/sync_gateway.json";
    "/etc/sync_gateway/sync_gateway.json";
    "C:\Program Files (x86)\Couchbase\serviceconfig.json";
    "C:\Program Files\Couchbase\Sync Gateway\serviceconfig.json";
    "./sync_gateway.json" ]%string.

(** [url.Parse("http://127.0.0.1:4985")]. *)
Definition defaultSGURL : URL.t :=
  {| URL.Scheme := "http"; URL.Host := "127.0.0.1:4985"; URL.Path := "" |}.

(** The copy [httpsURL := *sgURL] with [httpsURL.Scheme = "https"]. *)
Definition withHTTPS (sgURL : URL.t) : URL.t :=
  {| URL.Scheme := "https";
     URL.Host := URL.Host sgURL;
     URL.Path := URL.Path sgURL |}.

(** The network and the file system are a world that each request and
    each [os.Stat] reads and may change.  [getJSONOverHTTP] is taken by
    what it does to the world: from the URL, the options and the present
    value of [result] it gives the error and the value [result] holds
    afterwards.  Its parameter [result any] makes it one method per type
    it decodes into. *)
Class JSONResult (World R : Type) : Type :=
  getJSONOverHTTP :
    string -> SGCollectOptions.t -> R -> state World (error * R).

Section Discovery.

Variable World : Type.

(** [map[string]any] and its nil value. *)
Variable JSONObject : Type.
Variable nilObject : JSONObject.

Context {getObject : JSONResult World JSONObject}.
Context {getExpvars : JSONResult World Expvars}.

(** The error of [os.Stat]. *)
Variable os_Stat : string -> state World error.

(** The method [String] of a URL. *)
Variable URL_String : URL.t -> string.

(** The calls of [log.Printf] are left out of what follows. *)
Definition determineSGURL (opts : SGCollectOptions.t)
  : state World (URL.t * bool) :=
  let sgURL :=
    match SGCollectOptions.SyncGatewayURL opts with
    | Some u => u
    | None => defaultSGURL
    end in
  r <- getJSONOverHTTP (URL_String sgURL) opts nilObject ;;
  match fst r with
  | None => ret (sgURL, true)
  | Some _ =>
      let httpsURL := withHTTPS sgURL in
      r' <- getJSONOverHTTP (URL_String httpsURL) opts (snd r) ;;
      match fst r' with
      | None => ret (httpsURL, true)
      | Some _ => ret (sgURL, false)
      end
  end.

Definition findSGBinaryAndConfigsFromExpvars (sgURL : URL.t)
  (opts : SGCollectOptions.t) : state World (string * string * bool) :=
  r <- getJSONOverHTTP (URL_String sgURL ++ "/_expvar")%string opts
         {| CmdLine := [] |} ;;
  ret (fromCmdLine (CmdLine (snd r))).

(** A loop [for _, path := range paths] that sets its variable to the
    first path on which [os.Stat] gives no error, and breaks. *)
Fixpoint firstFound (paths : list string) (current : string)
  : state World string :=
  match paths with
  | [] => ret current
  | path :: rest =>
      err <- os_Stat path ;;
      match err with
      | None => ret path
      | Some _ => firstFound rest current
      end
  end.

Definition findSGBinaryAndConfigs (sgURL : URL.t) (opts : SGCollectOptions.t)
  : state World (string * string) :=
  let binary := SGCollectOptions.SyncGatewayExecutable opts in
  let config := SGCollectOptions.SyncGatewayConfig opts in
  if (negb (String.eqb binary "") && negb (String.eqb config ""))%bool
  then ret (binary, config)
  else
    found <- findSGBinaryAndConfigsFromExpvars sgURL opts ;;
    let '(binary, config, ok) := found in
    if (ok : bool) then ret (binary, config)
    else
      binary <- firstFound sgBinPaths binary ;;
      config <- firstFound bootstrapConfigLocations config ;;
      ret (binary, config).

End Discovery.

(** The archive names that [main] computes from the options. *)
Definition main_zipFilename (opts : SGCollectOptions.t) : string :=
  let zipFilename := SGCollectOptions.OutputPath opts in
  if negb (strings_HasSuffix zipFilename ".zip")
  then (zipFilename ++ ".zip")%string
  else zipFilename.

Definition main_shouldRedact (opts : SGCollectOptions.t) : bool :=
  negb (String.eqb (SGCollectOptions.LogRedactionLevel opts) RedactNone).

Definition main_redactedZipFilename (opts : SGCollectOptions.t) : string :=
  if main_shouldRedact opts
  then (strings_TrimSuffix (main_zipFilename opts) ".zip" ++ "-redacted.zip")%string
  else ""%string.

Definition main_uploadFilename (opts : SGCollectOptions.t) : string :=
  if main_shouldRedact opts
  then main_redactedZipFilename opts
  else main_zipFilename opts.

(** Sample options and a sample world: the requests made so far, newest
    first; only HTTPS requests are answered, and only the relative paths
    exist. *)
Definition sampleOptions (out exe cfg : string) : SGCollectOptions.t :=
  {| SGCollectOptions.OutputPath := out;
     SGCollectOptions.RootDir := "";
     SGCollectOptions.LogRedactionLevel := RedactPartial;
     SGCollectOptions.LogRedactionSalt := "salt";
     SGCollectOptions.SyncGatewayURL := None;
     SGCollectOptions.SyncGatewayConfig := cfg;
     SGCollectOptions.SyncGatewayExecutable := exe;
     SGCollectOptions.SyncGatewayUsername := "Administrator";
     SGCollectOptions.SyncGatewayPassword := "hunter2";
     SGCollectOptions.HTTPTimeout := 30000000000;
     SGCollectOptions.TmpDir := "";
     SGCollectOptions.UploadHost := None;
     SGCollectOptions.UploadCustomer := "";
     SGCollectOptions.UploadTicketNumber := "";
     SGCollectOptions.UploadProxy := None |}%string.

Definition sampleURLString (u : URL.t) : string :=
  (URL.Scheme u ++ "://" ++ URL.Host u ++ URL.Path u)%string.

#[export] Instance sampleGetObject : JSONResult (list string) unit :=
  fun url opts result =>
    log <- get ;;
    put (url :: log) ;;
    ret (if prefix "https://" url then None
         else Some "connection refused"%string,
         result).

#[export] Instance sampleGetExpvars : JSONResult (list string) Expvars :=
  fun url opts result =>
    log <- get ;;
    put (url :: log) ;;
    ret (None,
         {| CmdLine := [ "/usr/local/bin/sync_gateway"; "-disable_persistent_config";
                         "/etc/sg/basic.json"; "/etc/sg/other.json" ]%string |}).

Definition sampleStat (path : string) : state (list string) error :=
  ret (if prefix "./" path then None
       else Some "no such file or directory"%string).

(* ------------------------------------------------------------------ *)
(** ** Running an observer action *)

Section Running.

Variable Worker : Type.

Lemma Send_runs (w : Worker) (e : streamEvent) (st : ObserverState Worker) :
  runState (Send w e) st =
  (tt, {| sent := sent st ++ [(w, e)]; warnings := warnings st |}).
Proof. reflexivity. Qed.

Lemma WarnfCtx_runs (fmt : string) (a : list LogArg)
  (st : ObserverState Worker) :
  runState (WarnfCtx fmt a) st =
  (tt, {| sent := sent st;
          warnings := warnings st ++ [{| format := fmt; args := a |}] |}).
Proof. reflexivity. Qed.

Lemma ret_runs (st : ObserverState Worker) :
  runState (ret tt : Observer Worker unit) st = (tt, st).
Proof. reflexivity. Qed.

Lemma seq_runs (c1 c2 : Observer Worker unit) (st : ObserverState Worker) :
  execState (c1 ;; c2) st = execState c2 (execState c1 st).
Proof.
  unfold execState. simpl.
  destruct (runState c1 st) as [[] st1]. reflexivity.
Qed.

End Running.

(* ------------------------------------------------------------------ *)
(** ** PasswordString *)

Lemma strings_Repeat_star (n : nat) :
  strings_Repeat "*" n = string_of_list_ascii (repeat "*"%char n).
Proof.
  induction n as [|n IH]; simpl.
  - reflexivity.
  - now rewrite IH.
Qed.

Lemma bytes_Repeat_star (n : nat) :
  bytes_Repeat (list_byte_of_string "*") n = repeat "*"%byte n.
Proof.
  induction n as [|n IH]; simpl.
  - reflexivity.
  - now rewrite IH.
Qed.

Lemma bytes_of_stars (n : nat) :
  list_byte_of_string (string_of_list_ascii (repeat "*"%char n)) =
  repeat "*"%byte n.
Proof.
  unfold list_byte_of_string.
  rewrite list_ascii_of_string_of_list_ascii.
  induction n as [|n IH]; simpl.
  - reflexivity.
  - now rewrite IH.
Qed.

Lemma length_stars (n : nat) :
  String.length (string_of_list_ascii (repeat "*"%char n)) = n.
Proof.
  induction n as [|n IH]; simpl; [reflexivity | now rewrite IH].
Qed.

(** C9: two passwords of the same length have the same [GoString] and the
    same [MarshalText]; each output is a run of ['*'] as long as the
    password, the two marshallers agree byte for byte, and the error of
    [MarshalText] is nil. *)
Theorem C9_PasswordString_shows_only_its_length (p q : PasswordString) :
  String.length p = String.length q ->
  GoString p = GoString q /\
  MarshalText p = MarshalText q /\
  GoString p = string_of_list_ascii (repeat "*"%char (String.length p)) /\
  String.length (GoString p) = String.length p /\
  fst (MarshalText p) = repeat "*"%byte (String.length p) /\
  List.length (fst (MarshalText p)) = String.length p /\
  fst (MarshalText p) = list_byte_of_string (GoString p) /\
  snd (MarshalText p) = None.
Proof.
  intros Hlen. unfold GoString, MarshalText. simpl fst. simpl snd.
  rewrite <- Hlen.
  rewrite strings_Repeat_star, bytes_Repeat_star, bytes_of_stars.
  repeat split.
  - apply length_stars.
  - apply repeat_length.
Qed.

Lemma C9_witness :
  String.length "hunter2" = String.length "letmein" /\
  GoString "hunter2"%string = "*******"%string /\
  GoString "letmein"%string = "*******"%string /\
  MarshalText "hunter2"%string = MarshalText "letmein"%string.
Proof.
  pose proof (@C9_PasswordString_shows_only_its_length
                "hunter2"%string "letmein"%string eq_refl) as [Hg [Hm _]].
  split; [reflexivity|].
  split; [reflexivity|].
  split; [rewrite <- Hg; reflexivity | exact Hm].
Defined.

(* ------------------------------------------------------------------ *)
(** ** asFeedEvent *)

Lemma mutation_feed_ignores_seq (now : Time) (c : streamEventCommon.t)
  (s s' : uint64) (f x : uint32) (ca : uint64) (d : uint8) (co : uint32)
  (k v : list byte) :
  mutationEvent_asFeedEvent now (mutationEvent.mk c s f x ca d co k v) =
  mutationEvent_asFeedEvent now (mutationEvent.mk c s' f x ca d co k v).
Proof. unfold mutationEvent_asFeedEvent. simpl. reflexivity. Qed.

Lemma deletion_feed_ignores_seq (now : Time) (c : streamEventCommon.t)
  (s s' : uint64) (ca : uint64) (d : uint8) (co : uint32)
  (k v : list byte) :
  deletionEvent_asFeedEvent now (deletionEvent.mk c s ca d co k v) =
  deletionEvent_asFeedEvent now (deletionEvent.mk c s' ca d co k v).
Proof. unfold deletionEvent_asFeedEvent. simpl. reflexivity. Qed.

Lemma asFeedEvent_key (now : Time) (ev : streamEvent)
  (fe : sgbucket.FeedEvent) :
  asFeedEvent now ev = Some fe -> keyOf ev = Some (sgbucket.Key fe).
Proof.
  destruct ev; simpl; intros H; try discriminate;
    injection H as <-; reflexivity.
Qed.

(** C3, as the claim states it, fails: two mutation events that differ in
    their seq alone have the same feed event, so nothing read off the feed
    event is the seq of the event it came from. *)
Lemma C3_counterexample_feed_event_has_no_seq :
  (mutationEvent.seq (sampleMutationEvent 1 "doc1") = 1 /\
   mutationEvent.seq (sampleMutationEvent 2 "doc1") = 2 /\
   mutationEvent_asFeedEvent 0 (sampleMutationEvent 1 "doc1") =
   mutationEvent_asFeedEvent 0 (sampleMutationEvent 2 "doc1")) /\
  ~ (exists Seq : sgbucket.FeedEvent -> uint64,
       forall (now : Time) (e : mutationEvent.t),
         Seq (mutationEvent_asFeedEvent now e) = mutationEvent.seq e).
Proof.
  split.
  - repeat split.
  - intros [Seq HSeq].
    pose proof (HSeq 0 (sampleMutationEvent 1 "doc1")) as H1.
    pose proof (HSeq 0 (sampleMutationEvent 2 "doc1")) as H2.
    unfold sampleMutationEvent in H1, H2.
    rewrite (mutation_feed_ignores_seq 0 _ 1 2) in H1.
    rewrite H2 in H1. simpl in H1. discriminate H1.
Qed.

(** C3, amended: the feed event of a mutation or deletion event carries
    the opcode, the partition, cas, flags, expiry, collection ID, datatype,
    key, value and the time of the call, the flags and expiry of a deletion
    being zero; the seq of the event is not carried: events that differ in
    their seq alone have the same feed event. *)
Theorem C3_asFeedEvent_carries_all_fields_but_seq (now : Time) :
  (forall e : mutationEvent.t,
     let fe := mutationEvent_asFeedEvent now e in
     sgbucket.Opcode fe = sgbucket.FeedOpMutation /\
     sgbucket.VbNo fe = VbID e /\
     sgbucket.Cas fe = mutationEvent.cas e /\
     sgbucket.Flags fe = mutationEvent.flags e /\
     sgbucket.Expiry fe = mutationEvent.expiry e /\
     sgbucket.CollectionID fe = mutationEvent.collection e /\
     sgbucket.DataType fe = mutationEvent.datatype e /\
     sgbucket.Key fe = mutationEvent.key e /\
     sgbucket.Value fe = mutationEvent.value e /\
     sgbucket.TimeReceived fe = now) /\
  (forall e : deletionEvent.t,
     let fe := deletionEvent_asFeedEvent now e in
     sgbucket.Opcode fe = sgbucket.FeedOpDeletion /\
     sgbucket.VbNo fe = VbID e /\
     sgbucket.Cas fe = deletionEvent.cas e /\
     sgbucket.Flags fe = 0 /\
     sgbucket.Expiry fe = 0 /\
     sgbucket.CollectionID fe = deletionEvent.collection e /\
     sgbucket.DataType fe = deletionEvent.datatype e /\
     sgbucket.Key fe = deletionEvent.key e /\
     sgbucket.Value fe = deletionEvent.value e /\
     sgbucket.TimeReceived fe = now) /\
  (forall c s s' f x ca d co k v,
     mutationEvent_asFeedEvent now (mutationEvent.mk c s f x ca d co k v) =
     mutationEvent_asFeedEvent now (mutationEvent.mk c s' f x ca d co k v)) /\
  (forall c s s' ca d co k v,
     deletionEvent_asFeedEvent now (deletionEvent.mk c s ca d co k v) =
     deletionEvent_asFeedEvent now (deletionEvent.mk c s' ca d co k v)).
Proof.
  split; [|split; [|split]].
  - intros e fe. subst fe. destruct e as [c s f x ca d co k v].
    repeat split.
  - intros e fe. subst fe. destruct e as [c s ca d co k v].
    repeat split.
  - intros. apply mutation_feed_ignores_seq.
  - intros. apply deletion_feed_ignores_seq.
Qed.

(** C10: the feed event of a deletion event has opcode [FeedOpDeletion]
    and zero flags and expiry; the feed event of a mutation event has
    opcode [FeedOpMutation] and the flags and expiry of the event. *)
Theorem C10_deletion_feed_event_has_no_flags_or_expiry :
  (forall (now : Time) (e : deletionEvent.t),
     sgbucket.Opcode (deletionEvent_asFeedEvent now e) =
       sgbucket.FeedOpDeletion /\
     sgbucket.Flags (deletionEvent_asFeedEvent now e) = 0 /\
     sgbucket.Expiry (deletionEvent_asFeedEvent now e) = 0) /\
  (forall (now : Time) (e : mutationEvent.t),
     sgbucket.Opcode (mutationEvent_asFeedEvent now e) =
       sgbucket.FeedOpMutation /\
     sgbucket.Flags (mutationEvent_asFeedEvent now e) =
       mutationEvent.flags e /\
     sgbucket.Expiry (mutationEvent_asFeedEvent now e) =
       mutationEvent.expiry e).
Proof.
  split; intros now e.
  - destruct e as [c s ca d co k v].
    unfold deletionEvent_asFeedEvent. simpl. repeat split.
  - destruct e as [c s f x ca d co k v].
    unfold mutationEvent_asFeedEvent. simpl. repeat split.
Qed.

(* ------------------------------------------------------------------ *)
(** ** The stream observer: what each callback does *)

Section ObserverFacts.

Import gocbcore.

Variable Worker : Type.
Variable workerForVbno : uint16 -> Worker.
Variable filteredKey : list byte -> bool.
Variables DcpCollectionCreation DcpCollectionDeletion DcpCollectionFlush : Type.
Variables DcpScopeCreation DcpScopeDeletion : Type.
Variables DcpCollectionModification DcpOSOSnapshot : Type.

Let State := ObserverState Worker.
Let Cb := Callback DcpCollectionCreation DcpCollectionDeletion
            DcpCollectionFlush DcpScopeCreation DcpScopeDeletion
            DcpCollectionModification DcpOSOSnapshot.

Lemma Mutation_filtered (m : DcpMutation.t) (st : State) :
  filteredKey (DcpMutation.Key m) = true ->
  runState (Mutation workerForVbno filteredKey m) st = (tt, st).
Proof. intros H. unfold Mutation. rewrite H. reflexivity. Qed.

Lemma Deletion_filtered (d : DcpDeletion.t) (st : State) :
  filteredKey (DcpDeletion.Key d) = true ->
  runState (Deletion workerForVbno filteredKey d) st = (tt, st).
Proof. intros H. unfold Deletion. rewrite H. reflexivity. Qed.

Lemma Mutation_passed (m : DcpMutation.t) (st : State) :
  filteredKey (DcpMutation.Key m) = false ->
  runState (Mutation workerForVbno filteredKey m) st =
  (tt, afterSend st (workerForVbno (DcpMutation.VbID m))
         (MutationEvent
            (mutationEvent.mk
               (streamEventCommon.mk (DcpMutation.VbID m)
                  (DcpMutation.StreamID m))
               (DcpMutation.SeqNo m) (DcpMutation.Flags m)
               (DcpMutation.Expiry m) (DcpMutation.Cas m)
               (DcpMutation.Datatype m) (DcpMutation.CollectionID m)
               (DcpMutation.Key m) (DcpMutation.Value m)))).
Proof. intros H. unfold Mutation. rewrite H. reflexivity. Qed.

Lemma Deletion_passed (d : DcpDeletion.t) (st : State) :
  filteredKey (DcpDeletion.Key d) = false ->
  runState (Deletion workerForVbno filteredKey d) st =
  (tt, afterSend st (workerForVbno (DcpDeletion.VbID d))
         (DeletionEvent
            (deletionEvent.mk
               (streamEventCommon.mk (DcpDeletion.VbID d)
                  (DcpDeletion.StreamID d))
               (DcpDeletion.SeqNo d) (DcpDeletion.Cas d)
               (DcpDeletion.Datatype d) (DcpDeletion.CollectionID d)
               (DcpDeletion.Key d) (DcpDeletion.Value d)))).
Proof. intros H. unfold Deletion. rewrite H. reflexivity. Qed.

(** One callback adds to [sent] at its end, and what it adds is routed by
    partition and passed the filter. *)
Lemma deliver_extends (cb : Cb) (st : State) :
  exists added,
    sent (execState (deliver workerForVbno filteredKey cb) st) =
      sent st ++ added /\
    Forall (routed workerForVbno) added /\
    Forall (unfiltered filteredKey) added.
Proof.
  destruct cb as [m|m|d|e err|x|c|c|c|c|c|c|s|a]; unfold execState; simpl deliver.
  - eexists; split; [reflexivity|].
    split; repeat constructor. intros key H; discriminate H.
  - destruct (filteredKey (DcpMutation.Key m)) eqn:Hk.
    + rewrite (Mutation_filtered _ _ Hk). exists []. simpl.
      rewrite app_nil_r. repeat constructor.
    + rewrite (Mutation_passed _ _ Hk). eexists; split; [reflexivity|].
      split; repeat constructor.
      intros key H; simpl in H. injection H as <-. exact Hk.
  - destruct (filteredKey (DcpDeletion.Key d)) eqn:Hk.
    + rewrite (Deletion_filtered _ _ Hk). exists []. simpl.
      rewrite app_nil_r. repeat constructor.
    + rewrite (Deletion_passed _ _ Hk). eexists; split; [reflexivity|].
      split; repeat constructor.
      intros key H; simpl in H. injection H as <-. exact Hk.
  - eexists; split; [reflexivity|].
    split; repeat constructor. intros key H; discriminate H.
  - exists []. simpl. rewrite app_nil_r. repeat constructor.
  - exists []. simpl. rewrite app_nil_r. repeat constructor.
  - exists []. simpl. rewrite app_nil_r. repeat constructor.
  - exists []. simpl. rewrite app_nil_r. repeat constructor.
  - exists []. simpl. rewrite app_nil_r. repeat constructor.
  - exists []. simpl. rewrite app_nil_r. repeat constructor.
  - exists []. simpl. rewrite app_nil_r. repeat constructor.
  - exists []. simpl. rewrite app_nil_r. repeat constructor.
  - eexists; split; [reflexivity|].
    split; repeat constructor. intros key H; discriminate H.
Qed.

Lemma deliverAll_cons (cb : Cb) (rest : list Cb) (st : State) :
  execState (deliverAll workerForVbno filteredKey (cb :: rest)) st =
  execState (deliverAll workerForVbno filteredKey rest)
    (execState (deliver workerForVbno filteredKey cb) st).
Proof. exact (seq_runs _ _ st). Qed.

(** Over a whole session every entry of [sent] stays routed and
    unfiltered. *)
Lemma deliverAll_keeps (cbs : list Cb) :
  forall st : State,
    Forall (routed workerForVbno) (sent st) ->
    Forall (unfiltered filteredKey) (sent st) ->
    Forall (routed workerForVbno)
      (sent (execState (deliverAll workerForVbno filteredKey cbs) st)) /\
    Forall (unfiltered filteredKey)
      (sent (execState (deliverAll workerForVbno filteredKey cbs) st)).
Proof.
  induction cbs as [|cb rest IH]; intros st Hr Hu.
  - split; assumption.
  - rewrite deliverAll_cons.
    destruct (deliver_extends cb st) as (added & E & Hr' & Hu').
    apply IH; rewrite E; apply Forall_app; split; assumption.
Qed.

(** One callback sends one more control event when it is a control
    callback, and no control event otherwise. *)
Lemma deliver_controls (cb : Cb) (st : State) :
  controlsSent (execState (deliver workerForVbno filteredKey cb) st) =
  (controlsSent st + (if isControlCallback cb then 1 else 0))%nat.
Proof.
  unfold controlsSent.
  destruct cb as [m|m|d|e err|x|c|c|c|c|c|c|s|a];
    unfold execState; simpl deliver; simpl isControlCallback.
  - simpl. rewrite filter_app, length_app. reflexivity.
  - destruct (filteredKey (DcpMutation.Key m)) eqn:Hk.
    + rewrite (Mutation_filtered _ _ Hk). simpl. lia.
    + rewrite (Mutation_passed _ _ Hk). simpl.
      rewrite filter_app, length_app. reflexivity.
  - destruct (filteredKey (DcpDeletion.Key d)) eqn:Hk.
    + rewrite (Deletion_filtered _ _ Hk). simpl. lia.
    + rewrite (Deletion_passed _ _ Hk). simpl.
      rewrite filter_app, length_app. reflexivity.
  - simpl. rewrite filter_app, length_app. reflexivity.
  - simpl. lia.
  - simpl. lia.
  - simpl. lia.
  - simpl. lia.
  - simpl. lia.
  - simpl. lia.
  - simpl. lia.
  - simpl. lia.
  - simpl. rewrite filter_app, length_app. reflexivity.
Qed.

Lemma deliverAll_controls (cbs : list Cb) :
  forall st : State,
    controlsSent (execState (deliverAll workerForVbno filteredKey cbs) st) =
    (controlsSent st + List.length (filter isControlCallback cbs))%nat.
Proof.
  induction cbs as [|cb rest IH]; intros st.
  - simpl. unfold execState. simpl. lia.
  - rewrite deliverAll_cons, IH, deliver_controls. simpl filter.
    destruct (isControlCallback cb); simpl List.length; lia.
Qed.

(** C1: a mutation or deletion callback whose key the filter matches
    returns without a [Send] and leaves the state as it was; hence over
    any session from an idle client, no event that was sent turns into a
    feed event whose key the filter matches. *)
Theorem C1_filtered_documents_are_not_dispatched :
  (forall (m : DcpMutation.t) (st : State),
     filteredKey (DcpMutation.Key m) = true ->
     runState (Mutation workerForVbno filteredKey m) st = (tt, st)) /\
  (forall (d : DcpDeletion.t) (st : State),
     filteredKey (DcpDeletion.Key d) = true ->
     runState (Deletion workerForVbno filteredKey d) st = (tt, st)) /\
  (forall (cbs : list Cb) (w : Worker) (ev : streamEvent) (now : Time)
          (fe : sgbucket.FeedEvent),
     In (w, ev)
        (sent (execState (deliverAll workerForVbno filteredKey cbs) idle)) ->
     asFeedEvent now ev = Some fe ->
     filteredKey (sgbucket.Key fe) = false).
Proof.
  split; [|split].
  - intros m st H. now apply Mutation_filtered.
  - intros d st H. now apply Deletion_filtered.
  - intros cbs w ev now fe Hin Hfe.
    destruct (@deliverAll_keeps cbs idle) as [_ Hu];
      [constructor | constructor |].
    rewrite Forall_forall in Hu.
    apply (Hu (w, ev) Hin). simpl.
    now apply asFeedEvent_key with (now := now).
Qed.

(** C2: whatever the key filter is, a snapshot-marker, stream-end or
    seqno-advanced callback sends its event, built from the callback, to
    the worker of its partition; over a session as many control events are
    sent as control callbacks arrive. *)
Theorem C2_control_events_are_dispatched_unfiltered :
  (forall (m : DcpSnapshotMarker.t) (st : State),
     runState (deliver workerForVbno filteredKey (OnSnapshotMarker m : Cb)) st =
     (tt, afterSend st (workerForVbno (DcpSnapshotMarker.VbID m))
            (SnapshotEvent
               (snapshotEvent.mk
                  (streamEventCommon.mk (DcpSnapshotMarker.VbID m)
                     (DcpSnapshotMarker.StreamID m))
                  (DcpSnapshotMarker.StartSeqNo m)
                  (DcpSnapshotMarker.EndSeqNo m)
                  (DcpSnapshotMarker.SnapshotType m))))) /\
  (forall (e : DcpStreamEnd.t) (err : error) (st : State),
     runState (deliver workerForVbno filteredKey (OnEnd e err : Cb)) st =
     (tt, afterSend st (workerForVbno (DcpStreamEnd.VbID e))
            (EndStreamEvent
               (endStreamEvent.mk
                  (streamEventCommon.mk (DcpStreamEnd.VbID e)
                     (DcpStreamEnd.StreamID e))
                  err)))) /\
  (forall (a : DcpSeqNoAdvanced.t) (st : State),
     runState (deliver workerForVbno filteredKey (OnSeqNoAdvanced a : Cb)) st =
     (tt, afterSend st (workerForVbno (DcpSeqNoAdvanced.VbID a))
            (SeqnoAdvancedEvent
               (seqnoAdvancedEvent.mk
                  (streamEventCommon.mk (DcpSeqNoAdvanced.VbID a)
                     (DcpSeqNoAdvanced.StreamID a))
                  (DcpSeqNoAdvanced.SeqNo a))))) /\
  (forall cbs : list Cb,
     controlsSent
       (execState (deliverAll workerForVbno filteredKey cbs) idle) =
     List.length (filter isControlCallback cbs)).
Proof.
  split; [|split; [|split]].
  - intros m st. reflexivity.
  - intros e err st. reflexivity.
  - intros a st. reflexivity.
  - intros cbs. rewrite deliverAll_controls. reflexivity.
Qed.

(** C4: a mutation callback whose key is not filtered sends a mutation
    event with the callback's seq, cas, flags, expiry, datatype,
    collection, key and value; a deletion callback whose key is not
    filtered sends a deletion event with the callback's seq, cas,
    datatype, collection, key and value. *)
Theorem C4_classification_captures_the_attributes :
  (forall (m : DcpMutation.t) (st : State),
     filteredKey (DcpMutation.Key m) = false ->
     exists e : mutationEvent.t,
       runState (Mutation workerForVbno filteredKey m) st =
       (tt, afterSend st (workerForVbno (DcpMutation.VbID m))
              (MutationEvent e)) /\
       mutationEvent.seq e = DcpMutation.SeqNo m /\
       mutationEvent.cas e = DcpMutation.Cas m /\
       mutationEvent.flags e = DcpMutation.Flags m /\
       mutationEvent.expiry e = DcpMutation.Expiry m /\
       mutationEvent.datatype e = DcpMutation.Datatype m /\
       mutationEvent.collection e = DcpMutation.CollectionID m /\
       mutationEvent.key e = DcpMutation.Key m /\
       mutationEvent.value e = DcpMutation.Value m) /\
  (forall (d : DcpDeletion.t) (st : State),
     filteredKey (DcpDeletion.Key d) = false ->
     exists e : deletionEvent.t,
       runState (Deletion workerForVbno filteredKey d) st =
       (tt, afterSend st (workerForVbno (DcpDeletion.VbID d))
              (DeletionEvent e)) /\
       deletionEvent.seq e = DcpDeletion.SeqNo d /\
       deletionEvent.cas e = DcpDeletion.Cas d /\
       deletionEvent.datatype e = DcpDeletion.Datatype d /\
       deletionEvent.collection e = DcpDeletion.CollectionID d /\
       deletionEvent.key e = DcpDeletion.Key d /\
       deletionEvent.value e = DcpDeletion.Value d).
Proof.
  split.
  - intros m st Hk. eexists. split.
    + apply (Mutation_passed _ _ Hk).
    + simpl. repeat split.
  - intros d st Hk. eexists. split.
    + apply (Deletion_passed _ _ Hk).
    + simpl. repeat split.
Qed.

(** C5: [filteredKey] of the client is false on every key, so with it
    every mutation callback and every deletion callback sends its event. *)
Theorem C5_filteredKey_drops_nothing :
  (forall key : list byte, DCPClient_filteredKey key = false) /\
  (forall (m : DcpMutation.t) (st : State),
     exists e : mutationEvent.t,
       runState (Mutation workerForVbno DCPClient_filteredKey m) st =
       (tt, afterSend st (workerForVbno (DcpMutation.VbID m))
              (MutationEvent e)) /\
       mutationEvent.key e = DcpMutation.Key m) /\
  (forall (d : DcpDeletion.t) (st : State),
     exists e : deletionEvent.t,
       runState (Deletion workerForVbno DCPClient_filteredKey d) st =
       (tt, afterSend st (workerForVbno (DcpDeletion.VbID d))
              (DeletionEvent e)) /\
       deletionEvent.key e = DcpDeletion.Key d).
Proof.
  split; [|split].
  - intros key. unfold DCPClient_filteredKey. reflexivity.
  - intros m st. eexists. split.
    + unfold Mutation, DCPClient_filteredKey. reflexivity.
    + reflexivity.
  - intros d st. eexists. split.
    + unfold Deletion, DCPClient_filteredKey. reflexivity.
    + reflexivity.
Qed.

(** C6: each of the five dispatching callbacks sends its event to
    [workerForVbno] of the event's own [VbID], and that [VbID] and the
    stream ID are the callback's; over any session from an idle client
    every event that was sent went to the worker of its partition. *)
Theorem C6_events_go_to_the_worker_of_their_partition :
  (forall (m : DcpSnapshotMarker.t) (st : State),
     exists ev : streamEvent,
       runState (SnapshotMarker workerForVbno m) st =
         (tt, afterSend st (workerForVbno (VbID ev)) ev) /\
       VbID ev = DcpSnapshotMarker.VbID m /\
       streamEventCommon.streamID (commonOf ev) =
         DcpSnapshotMarker.StreamID m) /\
  (forall (m : DcpMutation.t) (st : State),
     filteredKey (DcpMutation.Key m) = false ->
     exists ev : streamEvent,
       runState (Mutation workerForVbno filteredKey m) st =
         (tt, afterSend st (workerForVbno (VbID ev)) ev) /\
       VbID ev = DcpMutation.VbID m /\
       streamEventCommon.streamID (commonOf ev) = DcpMutation.StreamID m) /\
  (forall (d : DcpDeletion.t) (st : State),
     filteredKey (DcpDeletion.Key d) = false ->
     exists ev : streamEvent,
       runState (Deletion workerForVbno filteredKey d) st =
         (tt, afterSend st (workerForVbno (VbID ev)) ev) /\
       VbID ev = DcpDeletion.VbID d /\
       streamEventCommon.streamID (commonOf ev) = DcpDeletion.StreamID d) /\
  (forall (e : DcpStreamEnd.t) (err : error) (st : State),
     exists ev : streamEvent,
       runState (End workerForVbno e err) st =
         (tt, afterSend st (workerForVbno (VbID ev)) ev) /\
       VbID ev = DcpStreamEnd.VbID e /\
       streamEventCommon.streamID (commonOf ev) = DcpStreamEnd.StreamID e) /\
  (forall (a : DcpSeqNoAdvanced.t) (st : State),
     exists ev : streamEvent,
       runState (SeqNoAdvanced workerForVbno a) st =
         (tt, afterSend st (workerForVbno (VbID ev)) ev) /\
       VbID ev = DcpSeqNoAdvanced.VbID a /\
       streamEventCommon.streamID (commonOf ev) =
         DcpSeqNoAdvanced.StreamID a) /\
  (forall (cbs : list Cb) (w : Worker) (ev : streamEvent),
     In (w, ev)
        (sent (execState (deliverAll workerForVbno filteredKey cbs) idle)) ->
     w = workerForVbno (VbID ev)).
Proof.
  split; [|split; [|split; [|split; [|split]]]].
  - intros m st.
    exists (SnapshotEvent
              (snapshotEvent.mk
                 (streamEventCommon.mk (DcpSnapshotMarker.VbID m)
                    (DcpSnapshotMarker.StreamID m))
                 (DcpSnapshotMarker.StartSeqNo m)
                 (DcpSnapshotMarker.EndSeqNo m)
                 (DcpSnapshotMarker.SnapshotType m))).
    repeat split.
  - intros m st Hk. rewrite (Mutation_passed _ _ Hk).
    match goal with
    | |- context [afterSend st _ ?e] => exists e
    end.
    repeat split.
  - intros d st Hk. rewrite (Deletion_passed _ _ Hk).
    match goal with
    | |- context [afterSend st _ ?e] => exists e
    end.
    repeat split.
  - intros e err st.
    exists (EndStreamEvent
              (endStreamEvent.mk
                 (streamEventCommon.mk (DcpStreamEnd.VbID e)
                    (DcpStreamEnd.StreamID e))
                 err)).
    repeat split.
  - intros a st.
    exists (SeqnoAdvancedEvent
              (seqnoAdvancedEvent.mk
                 (streamEventCommon.mk (DcpSeqNoAdvanced.VbID a)
                    (DcpSeqNoAdvanced.StreamID a))
                 (DcpSeqNoAdvanced.SeqNo a))).
    repeat split.
  - intros cbs w ev Hin.
    destruct (@deliverAll_keeps cbs idle) as [Hr _];
      [constructor | constructor |].
    rewrite Forall_forall in Hr. exact (Hr (w, ev) Hin).
Qed.

(** C7: an expiration callback logs one warning, "Unexpected DCP
    expiration event", with the partition and the key, and sends nothing:
    [sent] is what it was. *)
Theorem C7_expiration_is_logged_and_not_dispatched :
  (forall (x : DcpExpiration.t) (st : State),
     runState (Expiration x) st =
     (tt, {| sent := sent st;
             warnings := warnings st ++
               [{| format :=
                     "Unexpected DCP expiration event (vb:%d) for key %v";
                   args := [Uint (DcpExpiration.VbID x);
                            UD (string_of_list_byte (DcpExpiration.Key x))]
                |}] |})) /\
  (forall (x : DcpExpiration.t) (st : State),
     sent (execState
             (deliver workerForVbno filteredKey (OnExpiration x : Cb)) st) =
     sent st).
Proof.
  split.
  - intros x st. unfold Expiration. apply WarnfCtx_runs.
  - intros x st. unfold execState. simpl deliver. unfold Expiration.
    rewrite WarnfCtx_runs. reflexivity.
Qed.

(** C8: the collection-create, collection-delete, collection-flush,
    scope-create, scope-delete, collection-modify and OSO-snapshot
    callbacks return with the state they were given: nothing is sent and
    nothing is logged. *)
Theorem C8_collection_callbacks_are_no_ops :
  (forall (c : DcpCollectionCreation) (st : State),
     runState (CreateCollection c) st = (tt, st)) /\
  (forall (c : DcpCollectionDeletion) (st : State),
     runState (DeleteCollection c) st = (tt, st)) /\
  (forall (c : DcpCollectionFlush) (st : State),
     runState (FlushCollection c) st = (tt, st)) /\
  (forall (c : DcpScopeCreation) (st : State),
     runState (CreateScope c) st = (tt, st)) /\
  (forall (c : DcpScopeDeletion) (st : State),
     runState (DeleteScope c) st = (tt, st)) /\
  (forall (c : DcpCollectionModification) (st : State),
     runState (ModifyCollection c) st = (tt, st)) /\
  (forall (s : DcpOSOSnapshot) (st : State),
     runState (OSOSnapshot s) st = (tt, st)).
Proof.
  repeat split; intros c st; apply ret_runs.
Qed.

End ObserverFacts.

(* ------------------------------------------------------------------ *)
(** ** The theorems at work on sample data

    Four workers with partitions sharded modulo four, the ["_sync:"]
    prefix filter or the client's own [filteredKey], and the sample
    session. *)

Lemma C1_witness :
  syncPrefixFilter (bytesOf "_sync:x") = true /\
  runState (Mutation (shardedWorker 4) syncPrefixFilter
              (sampleMutation 2 "_sync:x")) idle = (tt, idle) /\
  runState (Deletion (shardedWorker 4) syncPrefixFilter
              (sampleDeletion 3 "_sync:x")) idle = (tt, idle) /\
  syncPrefixFilter
    (sgbucket.Key (mutationEvent_asFeedEvent 0 (sampleMutationEvent 1 "a"))) =
  false.
Proof.
  destruct (@C1_filtered_documents_are_not_dispatched Z (shardedWorker 4)
              syncPrefixFilter unit unit unit unit unit unit unit)
    as (Hm & Hd & Hs).
  split; [reflexivity|].
  split; [apply Hm; reflexivity|].
  split; [apply Hd; reflexivity|].
  apply (Hs sampleSession 1 (MutationEvent (sampleMutationEvent 1 "a")) 0).
  - vm_compute. right. left. reflexivity.
  - reflexivity.
Defined.

Lemma C4_witness :
  DCPClient_filteredKey (bytesOf "a") = false /\
  (exists e : mutationEvent.t,
     runState (Mutation (shardedWorker 4) DCPClient_filteredKey
                 (sampleMutation 1 "a")) idle =
     (tt, afterSend idle 1 (MutationEvent e)) /\
     e = sampleMutationEvent 1 "a") /\
  (exists e : deletionEvent.t,
     runState (Deletion (shardedWorker 4) DCPClient_filteredKey
                 (sampleDeletion 3 "b")) idle =
     (tt, afterSend idle 1 (DeletionEvent e)) /\
     e = sampleDeletionEvent 3 "b").
Proof.
  destruct (@C4_classification_captures_the_attributes Z (shardedWorker 4)
              DCPClient_filteredKey) as (Hm & Hd).
  split; [reflexivity|]. split.
  - destruct (Hm (sampleMutation 1 "a") idle eq_refl)
      as (e & Hrun & Hs & Hc & Hf & Hx & Hdt & Hco & Hk & Hv).
    exists e. split; [exact Hrun|].
    destruct e as [[vb sid] s ca f x dt co k v]. simpl in *.
    injection Hrun as <- <-.
    subst. reflexivity.
  - destruct (Hd (sampleDeletion 3 "b") idle eq_refl)
      as (e & Hrun & Hs & Hc & Hdt & Hco & Hk & Hv).
    exists e. split; [exact Hrun|].
    destruct e as [[vb sid] s ca dt co k v]. simpl in *.
    injection Hrun as <- <-.
    subst. reflexivity.
Defined.

Lemma C6_witness :
  (exists ev : streamEvent,
     runState (Mutation (shardedWorker 4) DCPClient_filteredKey
                 (sampleMutation 1 "a")) idle =
       (tt, afterSend idle (shardedWorker 4 (VbID ev)) ev) /\
     VbID ev = 513 /\
     streamEventCommon.streamID (commonOf ev) = 2) /\
  1 = shardedWorker 4 (VbID (DeletionEvent (sampleDeletionEvent 3 "b"))).
Proof.
  destruct (@C6_events_go_to_the_worker_of_their_partition Z
              (shardedWorker 4) DCPClient_filteredKey
              unit unit unit unit unit unit unit)
    as (_ & Hm & _ & _ & _ & Hs).
  split.
  - exact (Hm (sampleMutation 1 "a") idle eq_refl).
  - apply (Hs sampleSession 1 (DeletionEvent (sampleDeletionEvent 3 "b"))).
    vm_compute. do 3 right. left. reflexivity.
Defined.

(* ------------------------------------------------------------------ *)
(** ** Sessions of the stream observer *)

Section SessionFacts.

Import gocbcore.

Variable Worker : Type.
Variable workerForVbno : uint16 -> Worker.
Variable filteredKey : list byte -> bool.
Variables DcpCollectionCreation DcpCollectionDeletion DcpCollectionFlush : Type.
Variables DcpScopeCreation DcpScopeDeletion : Type.
Variables DcpCollectionModification DcpOSOSnapshot : Type.

Let State := ObserverState Worker.
Let Cb := Callback DcpCollectionCreation DcpCollectionDeletion
            DcpCollectionFlush DcpScopeCreation DcpScopeDeletion
            DcpCollectionModification DcpOSOSnapshot.

(** What one callback sends and logs, seen on an idle client. *)
Let sends (cb : Cb) : list (Worker * streamEvent) :=
  sent (execState (deliver workerForVbno filteredKey cb) idle).
Let logs (cb : Cb) : list Warning :=
  warnings (execState (deliver workerForVbno filteredKey cb) idle).

Ltac by_callback cb :=
  destruct cb as [m|m|d|e err|x|c|c|c|c|c|c|s|a];
  unfold execState; simpl deliver;
  [ | destruct (filteredKey (DcpMutation.Key m)) eqn:Hk;
      [ rewrite !(Mutation_filtered _ _ _ _ Hk)
      | rewrite !(Mutation_passed _ _ _ _ Hk) ]
    | destruct (filteredKey (DcpDeletion.Key d)) eqn:Hk;
      [ rewrite !(Deletion_filtered _ _ _ _ Hk)
      | rewrite !(Deletion_passed _ _ _ _ Hk) ]
    | | | | | | | | | | ].

Lemma deliver_frame (cb : Cb) (st : State) :
  sent (execState (deliver workerForVbno filteredKey cb) st) =
    sent st ++ sends cb /\
  warnings (execState (deliver workerForVbno filteredKey cb) st) =
    warnings st ++ logs cb.
Proof.
  unfold sends, logs.
  by_callback cb; simpl; rewrite ?app_nil_r; split; reflexivity.
Qed.

(** X1: a session adds to what was sent, in the order of the callbacks,
    exactly what each callback sends on its own, and likewise for the
    warnings: nothing sent earlier is removed or reordered, and no
    callback's effect depends on the callbacks before it. *)
Theorem X1_session_is_the_callbacks_in_order (cbs : list Cb) (st : State) :
  sent (execState (deliverAll workerForVbno filteredKey cbs) st) =
    sent st ++
    flat_map
      (fun cb => sent (execState (deliver workerForVbno filteredKey cb) idle))
      cbs /\
  warnings (execState (deliverAll workerForVbno filteredKey cbs) st) =
    warnings st ++
    flat_map
      (fun cb =>
         warnings (execState (deliver workerForVbno filteredKey cb) idle))
      cbs.
Proof.
  revert st. induction cbs as [|cb rest IH]; intros st.
  - unfold execState. simpl. rewrite !app_nil_r. split; reflexivity.
  - rewrite deliverAll_cons.
    destruct (IH (execState (deliver workerForVbno filteredKey cb) st))
      as [-> ->].
    destruct (deliver_frame cb st) as [-> ->].
    simpl flat_map. rewrite !app_assoc. split; reflexivity.
Qed.

Lemma deliverAll_sent (cbs : list Cb) (st : State) :
  sent (execState (deliverAll workerForVbno filteredKey cbs) st) =
  sent st ++ flat_map sends cbs.
Proof.
  revert st. induction cbs as [|cb rest IH]; intros st.
  - unfold execState. simpl. now rewrite app_nil_r.
  - rewrite deliverAll_cons, IH.
    destruct (deliver_frame cb st) as [-> _].
    simpl flat_map. now rewrite app_assoc.
Qed.

Lemma deliverAll_warnings (cbs : list Cb) (st : State) :
  warnings (execState (deliverAll workerForVbno filteredKey cbs) st) =
  warnings st ++ flat_map logs cbs.
Proof.
  revert st. induction cbs as [|cb rest IH]; intros st.
  - unfold execState. simpl. now rewrite app_nil_r.
  - rewrite deliverAll_cons, IH.
    destruct (deliver_frame cb st) as [_ ->].
    simpl flat_map. now rewrite app_assoc.
Qed.

Lemma collect_app (A B : Type) (f : A -> option B) (l1 l2 : list A) :
  collect f (l1 ++ l2) = collect f l1 ++ collect f l2.
Proof.
  induction l1 as [|x l1 IH]; simpl.
  - reflexivity.
  - destruct (f x); simpl; now rewrite IH.
Qed.

(** The seq, with its partition, among what one callback sends is the
    one the callback announces. *)
Lemma sends_seq (cb : Cb) :
  collect partitionSeqOf (map snd (sends cb)) =
  match announcedSeq filteredKey cb with
  | Some ps => [ps]
  | None => []
  end.
Proof.
  unfold sends. by_callback cb; simpl announcedSeq; rewrite ?Hk; reflexivity.
Qed.

(** A callback with no [Send] in its body sends nothing; one with a
    [Send] sends at most one event. *)
Lemma sends_length (cb : Cb) :
  (List.length (sends cb) <= if dispatches cb then 1 else 0)%nat.
Proof.
  unfold sends. by_callback cb; simpl; lia.
Qed.

Lemma logs_length (cb : Cb) :
  List.length (logs cb) = if isExpiration cb then 1%nat else 0%nat.
Proof.
  unfold logs. by_callback cb; reflexivity.
Qed.

Lemma sends_no_stream_open (cb : Cb) :
  forallb (fun c => negb (isStreamOpenEvent (snd c))) (sends cb) = true.
Proof.
  unfold sends. by_callback cb; reflexivity.
Qed.

(** X2: the partitions and seqs of the events sent in a session are those
    of the mutation and deletion callbacks that pass the key filter and of
    the seqno-advanced callbacks, in the order the transport made them:
    the observer neither reorders, repeats nor invents a seq. *)
Theorem X2_seqs_reach_the_workers_in_callback_order (cbs : list Cb) :
  collect partitionSeqOf
    (map snd
       (sent (execState (deliverAll workerForVbno filteredKey cbs) idle))) =
  collect (announcedSeq filteredKey) cbs.
Proof.
  rewrite deliverAll_sent. simpl sent. simpl app.
  induction cbs as [|cb rest IH].
  - reflexivity.
  - simpl flat_map. rewrite map_app, collect_app, IH, sends_seq.
    simpl collect. destruct (announcedSeq filteredKey cb); reflexivity.
Qed.

(** X3: the expiration, collection, scope and OSO-snapshot callbacks are
    invisible to the workers: a session sends what it would send without
    them.  Each expiration logs one warning and nothing else logs. *)
Theorem X3_only_dispatching_callbacks_reach_the_workers (cbs : list Cb) :
  sent (execState (deliverAll workerForVbno filteredKey cbs) idle) =
  sent (execState
          (deliverAll workerForVbno filteredKey (filter dispatches cbs))
          idle) /\
  List.length
    (warnings (execState (deliverAll workerForVbno filteredKey cbs) idle)) =
  List.length (filter isExpiration cbs).
Proof.
  split.
  - rewrite !deliverAll_sent. f_equal.
    induction cbs as [|cb rest IH].
    + reflexivity.
    + simpl filter. simpl flat_map.
      pose proof (sends_length cb) as Hlen.
      destruct (dispatches cb).
      * simpl flat_map. now rewrite IH.
      * destruct (sends cb); [exact IH | simpl in Hlen; lia].
  - rewrite deliverAll_warnings. simpl warnings. simpl app.
    induction cbs as [|cb rest IH].
    + reflexivity.
    + simpl flat_map. rewrite length_app, IH, logs_length.
      simpl filter. destruct (isExpiration cb); reflexivity.
Qed.

(** X4: the observer sends no stream-open event, whatever the session. *)
Theorem X4_observer_sends_no_stream_open_event (cbs : list Cb) :
  forallb (fun c => negb (isStreamOpenEvent (snd c)))
    (sent (execState (deliverAll workerForVbno filteredKey cbs) idle)) = true.
Proof.
  rewrite deliverAll_sent. simpl sent. simpl app.
  induction cbs as [|cb rest IH].
  - reflexivity.
  - simpl flat_map. rewrite forallb_app, IH, sends_no_stream_open.
    reflexivity.
Qed.

(** X5: from the callback to the feed event.  A mutation callback yields
    no feed event when its key is filtered, and otherwise the one feed
    event with opcode [FeedOpMutation] and the callback's flags, expiry,
    collection ID, key, value, datatype, cas and partition; a deletion
    callback likewise, with opcode [FeedOpDeletion] and zero flags and
    expiry. *)
Theorem X5_callback_to_feed_event (now : Time) :
  (forall m : DcpMutation.t,
     map (fun c => asFeedEvent now (snd c)) (sends (OnMutation m)) =
     if filteredKey (DcpMutation.Key m) then []
     else [Some (sgbucket.mkFeedEvent sgbucket.FeedOpMutation
                   (DcpMutation.Flags m) (DcpMutation.Expiry m)
                   (DcpMutation.CollectionID m) (DcpMutation.Key m)
                   (DcpMutation.Value m) (DcpMutation.Datatype m)
                   (DcpMutation.Cas m) (DcpMutation.VbID m) now)]) /\
  (forall d : DcpDeletion.t,
     map (fun c => asFeedEvent now (snd c)) (sends (OnDeletion d)) =
     if filteredKey (DcpDeletion.Key d) then []
     else [Some (sgbucket.mkFeedEvent sgbucket.FeedOpDeletion 0 0
                   (DcpDeletion.CollectionID d) (DcpDeletion.Key d)
                   (DcpDeletion.Value d) (DcpDeletion.Datatype d)
                   (DcpDeletion.Cas d) (DcpDeletion.VbID d) now)]).
Proof.
  split.
  - intros m. unfold sends, execState. simpl deliver.
    destruct (filteredKey (DcpMutation.Key m)) eqn:Hk.
    + rewrite (Mutation_filtered _ _ _ _ Hk). reflexivity.
    + rewrite (Mutation_passed _ _ _ _ Hk). reflexivity.
  - intros d. unfold sends, execState. simpl deliver.
    destruct (filteredKey (DcpDeletion.Key d)) eqn:Hk.
    + rewrite (Deletion_filtered _ _ _ _ Hk). reflexivity.
    + rewrite (Deletion_passed _ _ _ _ Hk). reflexivity.
Qed.

End SessionFacts.

Section ClientSessions.

Variable Worker : Type.
Variable workerForVbno : uint16 -> Worker.
Variables DcpCollectionCreation DcpCollectionDeletion DcpCollectionFlush : Type.
Variables DcpScopeCreation DcpScopeDeletion : Type.
Variables DcpCollectionModification DcpOSOSnapshot : Type.

Let Cb := Callback DcpCollectionCreation DcpCollectionDeletion
            DcpCollectionFlush DcpScopeCreation DcpScopeDeletion
            DcpCollectionModification DcpOSOSnapshot.

(** X6: with the client's own [filteredKey] a session sends one event
    for each snapshot-marker, mutation, deletion, stream-end and
    seqno-advanced callback it receives: as many events as such
    callbacks, none dropped and none doubled. *)
Theorem X6_client_sends_one_event_per_dispatching_callback
  (cbs : list Cb) :
  List.length
    (sent (execState (deliverAll workerForVbno DCPClient_filteredKey cbs)
             idle)) =
  List.length (filter dispatches cbs).
Proof.
  rewrite deliverAll_sent. simpl sent. simpl app.
  induction cbs as [|cb rest IH].
  - reflexivity.
  - simpl flat_map. rewrite length_app, IH. simpl filter.
    destruct cb; reflexivity.
Qed.

(** X7: over any session, two events of the same partition were sent to
    the same worker, whatever the key filter and the sharding. *)
Theorem X7_one_worker_per_partition (filteredKey : list byte -> bool)
  (cbs : list Cb) (w1 w2 : Worker) (ev1 ev2 : streamEvent) :
  In (w1, ev1)
     (sent (execState (deliverAll workerForVbno filteredKey cbs) idle)) ->
  In (w2, ev2)
     (sent (execState (deliverAll workerForVbno filteredKey cbs) idle)) ->
  VbID ev1 = VbID ev2 ->
  w1 = w2.
Proof.
  intros H1 H2 Hvb.
  destruct (@deliverAll_keeps Worker workerForVbno filteredKey
              _ _ _ _ _ _ _ cbs idle) as [Hr _];
    [constructor | constructor |].
  rewrite Forall_forall in Hr.
  pose proof (Hr _ H1) as R1. pose proof (Hr _ H2) as R2.
  unfold routed in R1, R2. simpl fst in R1, R2. simpl snd in R1, R2.
  rewrite R1, R2. f_equal. exact Hvb.
Qed.

End ClientSessions.

Lemma X7_witness :
  In (1, MutationEvent (sampleMutationEvent 1 "a"))
     (sent (execState
              (deliverAll (shardedWorker 4) syncPrefixFilter sampleSession)
              idle)) /\
  In (shardedWorker 4 513, DeletionEvent (sampleDeletionEvent 3 "b"))
     (sent (execState
              (deliverAll (shardedWorker 4) syncPrefixFilter sampleSession)
              idle)) /\
  1 = shardedWorker 4 513.
Proof.
  assert (H1 : In (1, MutationEvent (sampleMutationEvent 1 "a"))
                 (sent (execState
                          (deliverAll (shardedWorker 4) syncPrefixFilter
                             sampleSession) idle))).
  { vm_compute. right. left. reflexivity. }
  assert (H2 : In (shardedWorker 4 513,
                   DeletionEvent (sampleDeletionEvent 3 "b"))
                 (sent (execState
                          (deliverAll (shardedWorker 4) syncPrefixFilter
                             sampleSession) idle))).
  { vm_compute. right. right. left. reflexivity. }
  split; [exact H1|]. split; [exact H2|].
  exact (@X7_one_worker_per_partition Z (shardedWorker 4)
           unit unit unit unit unit unit unit
           syncPrefixFilter sampleSession _ _ _ _ H1 H2 eq_refl).
Defined.

(* ------------------------------------------------------------------ *)
(** ** sgcollect: suffixes *)

Lemma length_append (p q : string) :
  String.length (p ++ q) = (String.length p + String.length q)%nat.
Proof.
  induction p as [|c p IH]; simpl; [reflexivity | now rewrite IH].
Qed.

Lemma substring_whole (s : string) : substring 0 (String.length s) s = s.
Proof.
  induction s as [|c s IH]; simpl; [reflexivity | now rewrite IH].
Qed.

Lemma substring_head (p q : string) :
  substring 0 (String.length p) (p ++ q) = p.
Proof.
  induction p as [|c p IH]; simpl.
  - destruct q; reflexivity.
  - now rewrite IH.
Qed.

Lemma substring_tail (p q : string) :
  substring (String.length p) (String.length q) (p ++ q) = q.
Proof.
  induction p as [|c p IH]; simpl.
  - apply substring_whole.
  - exact IH.
Qed.

Lemma substring_split (s : string) :
  forall n : nat,
    (n <= String.length s)%nat ->
    s = (substring 0 n s ++ substring n (String.length s - n) s)%string.
Proof.
  induction s as [|c s IH]; intros n Hn.
  - simpl in Hn. assert (n = 0)%nat as -> by lia. reflexivity.
  - destruct n as [|n].
    + simpl. now rewrite substring_whole.
    + simpl in Hn. simpl. f_equal. apply IH. lia.
Qed.

Lemma HasSuffix_append (p suffix : string) :
  strings_HasSuffix (p ++ suffix) suffix = true.
Proof.
  unfold strings_HasSuffix. rewrite length_append.
  replace (String.length p + String.length suffix - String.length suffix)%nat
    with (String.length p) by lia.
  rewrite substring_tail, String.eqb_refl.
  rewrite Bool.andb_true_r. apply Nat.leb_le. lia.
Qed.

Lemma HasSuffix_split (s suffix : string) :
  strings_HasSuffix s suffix = true ->
  s = (strings_TrimSuffix s suffix ++ suffix)%string.
Proof.
  intros H. unfold strings_TrimSuffix. rewrite H.
  unfold strings_HasSuffix in H.
  apply Bool.andb_true_iff in H as [Hlen Heq].
  apply Nat.leb_le in Hlen. apply String.eqb_eq in Heq.
  pose proof (@substring_split s
                (String.length s - String.length suffix)%nat) as Hs.
  replace (String.length s - (String.length s - String.length suffix))%nat
    with (String.length suffix) in Hs by lia.
  rewrite Heq in Hs. apply Hs. lia.
Qed.

Lemma append_injective_left (p q suffix : string) :
  (p ++ suffix)%string = (q ++ suffix)%string -> p = q.
Proof.
  intros H.
  rewrite <- (substring_head p suffix), <- (substring_head q suffix).
  assert (String.length p = String.length q) as Hlen.
  { apply (f_equal String.length) in H. rewrite !length_append in H. lia. }
  rewrite H, Hlen. reflexivity.
Qed.

Lemma TrimSuffix_append (p suffix : string) :
  strings_TrimSuffix (p ++ suffix) suffix = p.
Proof.
  apply append_injective_left with (suffix := suffix).
  symmetry. apply HasSuffix_split, HasSuffix_append.
Qed.

Lemma HasSuffix_length (s suffix : string) :
  strings_HasSuffix s suffix = true ->
  (String.length suffix <= String.length s)%nat.
Proof.
  unfold strings_HasSuffix. intros H.
  apply Bool.andb_true_iff in H as [Hlen _]. now apply Nat.leb_le.
Qed.

(* ------------------------------------------------------------------ *)
(** ** sgcollect: archive names *)

Lemma zipFilename_stem (opts : SGCollectOptions.t) :
  exists stem : string, main_zipFilename opts = (stem ++ ".zip")%string.
Proof.
  unfold main_zipFilename.
  destruct (strings_HasSuffix (SGCollectOptions.OutputPath opts) ".zip")
    eqn:Hs; simpl.
  - eexists. apply HasSuffix_split. exact Hs.
  - eexists. reflexivity.
Qed.

(** X8: the name of the archive that [main] writes always ends in
    [".zip"]: an output path with that suffix is kept as it is, and any
    other gets the suffix appended. *)
Theorem X8_zip_filename_ends_in_zip (opts : SGCollectOptions.t) :
  strings_HasSuffix (main_zipFilename opts) ".zip" = true /\
  (main_zipFilename opts = SGCollectOptions.OutputPath opts \/
   (strings_HasSuffix (SGCollectOptions.OutputPath opts) ".zip" = false /\
    main_zipFilename opts =
      (SGCollectOptions.OutputPath opts ++ ".zip")%string)).
Proof.
  unfold main_zipFilename.
  destruct (strings_HasSuffix (SGCollectOptions.OutputPath opts) ".zip")
    eqn:Hs; simpl.
  - split; [exact Hs | left; reflexivity].
  - split; [apply HasSuffix_append | right; split; reflexivity].
Qed.

(** X9: when logs are redacted, the redacted archive is named after the
    unredacted one with [".zip"] replaced by ["-redacted.zip"]; the two
    names differ, so neither archive overwrites the other, and the
    redacted one is the file to upload. *)
Theorem X9_redacted_archive_name (opts : SGCollectOptions.t) :
  main_shouldRedact opts = true ->
  exists stem : string,
    main_zipFilename opts = (stem ++ ".zip")%string /\
    main_redactedZipFilename opts = (stem ++ "-redacted.zip")%string /\
    main_redactedZipFilename opts <> main_zipFilename opts /\
    main_uploadFilename opts = main_redactedZipFilename opts.
Proof.
  intros Hred.
  destruct (zipFilename_stem opts) as [stem Hstem].
  exists stem.
  unfold main_uploadFilename, main_redactedZipFilename.
  rewrite Hred, Hstem, TrimSuffix_append.
  repeat split.
  intros Heq. apply (f_equal String.length) in Heq.
  rewrite !length_append in Heq. simpl in Heq. lia.
Qed.

Lemma X9_witness :
  main_shouldRedact (sampleOptions "/tmp/out.zip" "" "") = true /\
  exists stem : string,
    main_zipFilename (sampleOptions "/tmp/out.zip" "" "") =
      (stem ++ ".zip")%string /\
    main_redactedZipFilename (sampleOptions "/tmp/out.zip" "" "") =
      (stem ++ "-redacted.zip")%string /\
    main_redactedZipFilename (sampleOptions "/tmp/out.zip" "" "") <>
      main_zipFilename (sampleOptions "/tmp/out.zip" "" "") /\
    main_uploadFilename (sampleOptions "/tmp/out.zip" "" "") =
      main_redactedZipFilename (sampleOptions "/tmp/out.zip" "" "").
Proof.
  split; [reflexivity|].
  exact (@X9_redacted_archive_name (sampleOptions "/tmp/out.zip" "" "")
           eq_refl).
Defined.

(* ------------------------------------------------------------------ *)
(** ** sgcollect: the shared HTTP client *)

Lemma getHTTPClient_first (opts : SGCollectOptions.t) :
  runState (getHTTPClient opts) clientVarsAtStart =
  (Some {| Timeout := SGCollectOptions.HTTPTimeout opts |},
   {| httpClient := Some {| Timeout := SGCollectOptions.HTTPTimeout opts |};
      httpClientInit := true |}).
Proof. reflexivity. Qed.

Lemma getHTTPClient_later (opts : SGCollectOptions.t) (c : option Client) :
  runState (getHTTPClient opts) {| httpClient := c; httpClientInit := true |} =
  (c, {| httpClient := c; httpClientInit := true |}).
Proof. reflexivity. Qed.

Lemma getHTTPClientEach_later (optss : list SGCollectOptions.t)
  (c : option Client) :
  runState (getHTTPClientEach optss)
    {| httpClient := c; httpClientInit := true |} =
  (repeat c (List.length optss), {| httpClient := c; httpClientInit := true |}).
Proof.
  induction optss as [|opts rest IH].
  - reflexivity.
  - change (runState (getHTTPClientEach (opts :: rest))
              {| httpClient := c; httpClientInit := true |})
      with (let (x, s1) := runState (getHTTPClient opts)
                             {| httpClient := c; httpClientInit := true |} in
            let (xs, s2) := runState (getHTTPClientEach rest) s1 in
            (x :: xs, s2)).
    rewrite getHTTPClient_later, IH. reflexivity.
Qed.

(** X10: the HTTP client is made once.  Every call of [getHTTPClient]
    in a run of the program returns the client with the timeout of the
    options of the first call; the timeout of later options is not used. *)
Theorem X10_http_client_keeps_the_first_timeout
  (first : SGCollectOptions.t) (later : list SGCollectOptions.t) :
  evalState (getHTTPClientEach (first :: later)) clientVarsAtStart =
  repeat (Some {| Timeout := SGCollectOptions.HTTPTimeout first |})
    (S (List.length later)).
Proof.
  unfold evalState.
  change (runState (getHTTPClientEach (first :: later)) clientVarsAtStart)
    with (let (x, s1) := runState (getHTTPClient first) clientVarsAtStart in
          let (xs, s2) := runState (getHTTPClientEach later) s1 in
          (x :: xs, s2)).
  rewrite getHTTPClient_first, getHTTPClientEach_later. reflexivity.
Qed.

(* ------------------------------------------------------------------ *)
(** ** sgcollect: binary and config from the command line *)

Lemma json_suffix_nonempty (arg : string) :
  strings_HasSuffix arg ".json" = true -> arg <> ""%string.
Proof.
  intros H ->. discriminate H.
Qed.

(** The loop finds the first argument with the suffix, or keeps the
    config it started with. *)
Lemma configAmong_spec (args : list string) (config : string) :
  (Forall (fun arg => strings_HasSuffix arg ".json" = false) args /\
   configAmong args config = config) \/
  (exists before after,
     args = before ++ configAmong args config :: after /\
     strings_HasSuffix (configAmong args config) ".json" = true /\
     Forall (fun arg => strings_HasSuffix arg ".json" = false) before).
Proof.
  induction args as [|arg rest IH]; simpl.
  - left. split; [constructor | reflexivity].
  - destruct (strings_HasSuffix arg ".json") eqn:Hs.
    + right. exists [], rest. repeat split; [exact Hs | constructor].
    + destruct IH as [[Hall Hcfg] | (before & after & Hrest & Hsuf & Hbef)].
      * left. split; [constructor; assumption | exact Hcfg].
      * right. exists (arg :: before), after. repeat split.
        -- simpl. now rewrite <- Hrest.
        -- exact Hsuf.
        -- constructor; assumption.
Qed.

(** What the function returns for a decoded command line. *)
Lemma fromCmdLine_spec :
  fromCmdLine [] = (""%string, ""%string, false) /\
  forall (binary : string) (rest : list string),
    exists (config : string) (ok : bool),
      fromCmdLine (binary :: rest) = (binary, config, ok) /\
      (ok = true <->
       Exists (fun arg => strings_HasSuffix arg ".json" = true) rest) /\
      (ok = true ->
       exists before after,
         rest = before ++ config :: after /\
         strings_HasSuffix config ".json" = true /\
         Forall (fun arg => strings_HasSuffix arg ".json" = false) before) /\
      (ok = false -> config = ""%string).
Proof.
  split; [reflexivity|].
  intros binary rest. unfold fromCmdLine.
  exists (configAmong rest ""), (negb (String.eqb (configAmong rest "") "")).
  split; [reflexivity|].
  destruct (configAmong_spec rest "")
    as [[Hall Hcfg] | (before & after & Hrest & Hsuf & Hbef)].
  - rewrite Hcfg. simpl. repeat split; try discriminate.
    intros Hex. apply Exists_exists in Hex as (arg & Hin & Harg).
    rewrite Forall_forall in Hall. rewrite (Hall arg Hin) in Harg.
    discriminate Harg.
  - pose proof (json_suffix_nonempty Hsuf) as Hne.
    apply String.eqb_neq in Hne. rewrite Hne. simpl. repeat split.
    + intros _. rewrite Hrest. apply Exists_app. right. now constructor.
    + intros _. exists before, after. repeat split; assumption.
    + discriminate.
Qed.

(* ------------------------------------------------------------------ *)
(** ** sgcollect: discovery of the Sync Gateway *)

Lemma runState_bind (S A B : Type) (c : state S A) (f : A -> state S B)
  (s : S) :
  runState (bind c f) s =
  runState (f (fst (runState c s))) (snd (runState c s)).
Proof. simpl. destruct (runState c s). reflexivity. Qed.

Section DiscoveryFacts.

Variable World : Type.
Variable JSONObject : Type.
Variable nilObject : JSONObject.
Context {getObject : JSONResult World JSONObject}.
Context {getExpvars : JSONResult World Expvars}.
Variable os_Stat : string -> state World error.
Variable URL_String : URL.t -> string.

Lemma expvars_result (sgURL : URL.t) (opts : SGCollectOptions.t)
  (w : World) :
  fst (runState (findSGBinaryAndConfigsFromExpvars URL_String sgURL opts) w) =
    fromCmdLine
      (CmdLine
         (snd (fst (runState
                      (getJSONOverHTTP (URL_String sgURL ++ "/_expvar")%string
                         opts {| CmdLine := [] |}) w)))) /\
  snd (runState (findSGBinaryAndConfigsFromExpvars URL_String sgURL opts) w) =
    snd (runState
           (getJSONOverHTTP (URL_String sgURL ++ "/_expvar")%string
              opts {| CmdLine := [] |}) w).
Proof.
  unfold findSGBinaryAndConfigsFromExpvars. rewrite runState_bind.
  split; reflexivity.
Qed.

(** X11: [findSGBinaryAndConfigsFromExpvars] makes one request, for
    [/_expvar], and answers from the command line that was decoded,
    whether or not the request gave an error.  An empty command line gives
    nothing.  Otherwise the binary is the first element; a config is found
    exactly when some later argument ends in [".json"], and it is then
    the first such argument; when none does the config is empty. *)
Theorem X11_binary_and_config_from_expvars (sgURL : URL.t)
  (opts : SGCollectOptions.t) (w : World) :
  let r := runState
             (getJSONOverHTTP (URL_String sgURL ++ "/_expvar")%string opts
                {| CmdLine := [] |}) w in
  let out := runState
               (findSGBinaryAndConfigsFromExpvars URL_String sgURL opts) w in
  snd out = snd r /\
  (CmdLine (snd (fst r)) = [] -> fst out = (""%string, ""%string, false)) /\
  (forall (binary : string) (rest : list string),
     CmdLine (snd (fst r)) = binary :: rest ->
     exists (config : string) (ok : bool),
       fst out = (binary, config, ok) /\
       (ok = true <->
        Exists (fun arg => strings_HasSuffix arg ".json" = true) rest) /\
       (ok = true ->
        exists before after,
          rest = before ++ config :: after /\
          strings_HasSuffix config ".json" = true /\
          Forall (fun arg => strings_HasSuffix arg ".json" = false) before) /\
       (ok = false -> config = ""%string)).
Proof.
  intros r out. subst out. unfold findSGBinaryAndConfigsFromExpvars.
  rewrite runState_bind. fold r. simpl.
  split; [reflexivity|]. split.
  - intros ->. reflexivity.
  - intros binary rest ->. apply (proj2 fromCmdLine_spec).
Qed.

(** X12: [determineSGURL] returns the URL of the options, or the default
    [http://127.0.0.1:4985] when there is none, or that URL with the
    scheme replaced by [https].  When it reports success, the last
    request it made was to the URL it returns and gave no error.  When it
    reports failure, it returns the URL it started from, and the request
    to that URL gave an error. *)
Theorem X12_determineSGURL_returns_a_reached_url
  (opts : SGCollectOptions.t) (w : World) :
  let sgURL :=
    match SGCollectOptions.SyncGatewayURL opts with
    | Some u => u
    | None => defaultSGURL
    end in
  let out := runState (determineSGURL nilObject URL_String opts) w in
  let url := fst (fst out) in
  let ok := snd (fst out) in
  (url = sgURL \/ url = withHTTPS sgURL) /\
  (ok = true ->
   exists (w0 : World) (root : JSONObject),
     fst (fst (runState (getJSONOverHTTP (URL_String url) opts root) w0)) =
       None /\
     snd (runState (getJSONOverHTTP (URL_String url) opts root) w0) =
       snd out) /\
  (ok = false ->
   url = sgURL /\
   fst (fst (runState
               (getJSONOverHTTP (URL_String sgURL) opts nilObject) w)) <>
     None).
Proof.
  intros sgURL out url ok. subst url ok out.
  unfold determineSGURL. fold sgURL.
  rewrite runState_bind. unfold error in *.
  match goal with
  | |- context [@runState ?S ?T ?c w] =>
      remember (@runState S T c w) as r1 eqn:E1
  end.
  destruct r1 as [[[e1|] root1] w1]; cbn [fst snd].
  - rewrite runState_bind.
    match goal with
    | |- context [@runState ?S ?T ?c w1] =>
        remember (@runState S T c w1) as r2 eqn:E2
    end.
    destruct r2 as [[[e2|] root2] w2]; simpl.
    + split; [left; reflexivity|]. split; [discriminate|].
      intros _. split; [reflexivity | discriminate].
    + split; [right; reflexivity|]. split; [|discriminate].
      intros _. exists w1, root1. rewrite <- E2. split; reflexivity.
  - simpl. split; [left; reflexivity|]. split; [|discriminate].
    intros _. exists w, nilObject. rewrite <- E1. split; reflexivity.
Qed.

Lemma firstFound_cons (path : string) (rest : list string)
  (current : string) (w : World) :
  runState (firstFound os_Stat (path :: rest) current) w =
  runState
    match fst (runState (os_Stat path) w) with
    | None => ret path
    | Some _ => firstFound os_Stat rest current
    end
    (snd (runState (os_Stat path) w)).
Proof. exact (runState_bind _ _ w). Qed.

(** The loop over well-known paths keeps its variable, or sets it to a
    path of the list on which [os.Stat] gave no error. *)
Lemma firstFound_spec (paths : list string) (current : string) :
  forall w : World,
    fst (runState (firstFound os_Stat paths current) w) = current \/
    (In (fst (runState (firstFound os_Stat paths current) w)) paths /\
     exists w0 : World,
       fst (runState
              (os_Stat (fst (runState (firstFound os_Stat paths current) w)))
              w0) = None).
Proof.
  induction paths as [|path rest IH]; intros w.
  - left. reflexivity.
  - rewrite firstFound_cons.
    destruct (fst (runState (os_Stat path) w)) as [e|] eqn:E.
    + destruct (IH (snd (runState (os_Stat path) w))) as [H | [Hin Hst]].
      * left. exact H.
      * right. split; [right; exact Hin | exact Hst].
    + right. simpl. split; [left; reflexivity|].
      exists w. exact E.
Qed.

(** X13: an executable and a config that are both passed on the command
    line are returned as they are, and nothing is asked of the network or
    the file system. *)
Theorem X13_manual_binary_and_config_are_used
  (sgURL : URL.t) (opts : SGCollectOptions.t) (w : World) :
  SGCollectOptions.SyncGatewayExecutable opts <> ""%string ->
  SGCollectOptions.SyncGatewayConfig opts <> ""%string ->
  runState (findSGBinaryAndConfigs os_Stat URL_String sgURL opts) w =
  ((SGCollectOptions.SyncGatewayExecutable opts,
    SGCollectOptions.SyncGatewayConfig opts), w).
Proof.
  intros Hb Hc. unfold findSGBinaryAndConfigs.
  apply String.eqb_neq in Hb, Hc. rewrite Hb, Hc. reflexivity.
Qed.

(** X14: unless both are passed, neither the executable nor the config
    of the options is returned for being passed.  The binary is the first
    element of the command line that the [/_expvar] request decoded,
    empty when there is none, or one of [sgBinPaths] on which [os.Stat]
    gave no error.  The config is empty, or an argument of that command
    line, or one of [bootstrapConfigLocations] on which [os.Stat] gave no
    error. *)
Theorem X14_discovered_binary_and_config
  (sgURL : URL.t) (opts : SGCollectOptions.t) (w : World) :
  SGCollectOptions.SyncGatewayExecutable opts = ""%string \/
  SGCollectOptions.SyncGatewayConfig opts = ""%string ->
  let cmdLine :=
    CmdLine
      (snd (fst (runState
                   (getJSONOverHTTP (URL_String sgURL ++ "/_expvar")%string
                      opts {| CmdLine := [] |}) w))) in
  let out :=
    fst (runState (findSGBinaryAndConfigs os_Stat URL_String sgURL opts) w) in
  (fst out = hd ""%string cmdLine \/
   (In (fst out) sgBinPaths /\
    exists w0 : World, fst (runState (os_Stat (fst out)) w0) = None)) /\
  (snd out = ""%string \/
   In (snd out) (tl cmdLine) \/
   (In (snd out) bootstrapConfigLocations /\
    exists w0 : World, fst (runState (os_Stat (snd out)) w0) = None)).
Proof.
  intros Hmanual cmdLine out. subst out.
  unfold findSGBinaryAndConfigs.
  assert ((negb (String.eqb (SGCollectOptions.SyncGatewayExecutable opts) "")
           && negb (String.eqb (SGCollectOptions.SyncGatewayConfig opts) ""))%bool
          = false) as ->.
  { destruct Hmanual as [-> | ->]; simpl.
    - reflexivity.
    - apply Bool.andb_false_r. }
  rewrite runState_bind.
  pose proof (expvars_result sgURL opts w) as Hx. fold cmdLine in Hx.
  destruct Hx as [Hfst Hsnd]. rewrite Hfst, Hsnd. clear Hfst Hsnd.
  destruct cmdLine as [|binary rest].
  - simpl fromCmdLine. cbv iota beta.
    rewrite !runState_bind. simpl hd. simpl tl.
    match goal with
    | |- context [runState (firstFound os_Stat sgBinPaths ""%string) ?w1] =>
        pose proof (firstFound_spec sgBinPaths ""%string w1) as Hb;
        set (rb := runState (firstFound os_Stat sgBinPaths ""%string) w1) in *
    end.
    match goal with
    | |- context [runState
                    (firstFound os_Stat bootstrapConfigLocations ""%string)
                    ?w2] =>
        pose proof (firstFound_spec bootstrapConfigLocations ""%string w2)
          as Hc;
        set (rc := runState
                     (firstFound os_Stat bootstrapConfigLocations ""%string)
                     w2) in *
    end.
    simpl fst. simpl snd. split.
    + destruct Hb as [Hb | Hb]; [left; exact Hb | right; exact Hb].
    + destruct Hc as [Hc | Hc]; [left; exact Hc | right; right; exact Hc].
  - destruct (proj2 fromCmdLine_spec binary rest)
      as (config & ok & Hout & _ & Hok & Hno).
    rewrite Hout. cbv iota beta. simpl hd. simpl tl.
    destruct ok.
    + simpl. split; [left; reflexivity|].
      destruct (Hok eq_refl) as (before & after & -> & _ & _).
      right. left. apply in_or_app. right. left. reflexivity.
    + rewrite (Hno eq_refl). rewrite !runState_bind.
      match goal with
      | |- context [runState (firstFound os_Stat sgBinPaths binary) ?w1] =>
          pose proof (firstFound_spec sgBinPaths binary w1) as Hb;
          set (rb := runState (firstFound os_Stat sgBinPaths binary) w1) in *
      end.
      match goal with
      | |- context [runState
                      (firstFound os_Stat bootstrapConfigLocations ""%string)
                      ?w2] =>
          pose proof (firstFound_spec bootstrapConfigLocations ""%string w2)
            as Hc;
          set (rc := runState
                       (firstFound os_Stat bootstrapConfigLocations
                          ""%string) w2) in *
      end.
      simpl fst. simpl snd. split.
      * destruct Hb as [Hb | Hb]; [left; exact Hb | right; exact Hb].
      * destruct Hc as [Hc | Hc]; [left; exact Hc | right; right; exact Hc].
Qed.

End DiscoveryFacts.

(** The discovery theorems on the sample world: no URL in the options,
    only HTTPS answers, and the process was started with a config. *)
Lemma X11_witness :
  exists (config : string) (ok : bool),
    fst (runState
           (findSGBinaryAndConfigsFromExpvars sampleURLString defaultSGURL
              (sampleOptions "out" "" "")) []) =
      ("/usr/local/bin/sync_gateway"%string, config, ok) /\
    (ok = true <->
     Exists (fun arg => strings_HasSuffix arg ".json" = true)
       [ "-disable_persistent_config"; "/etc/sg/basic.json";
         "/etc/sg/other.json" ]%string) /\
    (ok = true ->
     exists before after,
       [ "-disable_persistent_config"; "/etc/sg/basic.json";
         "/etc/sg/other.json" ]%string = before ++ config :: after /\
       strings_HasSuffix config ".json" = true /\
       Forall (fun arg => strings_HasSuffix arg ".json" = false) before) /\
    (ok = false -> config = ""%string).
Proof.
  pose proof (@X11_binary_and_config_from_expvars (list string) _
                sampleURLString defaultSGURL (sampleOptions "out" "" "") [])
    as H.
  cbv zeta in H. destruct H as (_ & _ & H).
  exact (H _ _ eq_refl).
Defined.

Lemma X12_witness :
  snd (fst (runState
              (determineSGURL tt sampleURLString (sampleOptions "out" "" ""))
              [])) = true /\
  exists (w0 : list string) (root : unit),
    fst (fst (runState
                (getJSONOverHTTP
                   (sampleURLString
                      (fst (fst (runState
                                   (determineSGURL tt sampleURLString
                                      (sampleOptions "out" "" "")) []))))
                   (sampleOptions "out" "" "") root) w0)) = None /\
    snd (runState
           (getJSONOverHTTP
              (sampleURLString
                 (fst (fst (runState
                              (determineSGURL tt sampleURLString
                                 (sampleOptions "out" "" "")) []))))
              (sampleOptions "out" "" "") root) w0) =
    snd (runState
           (determineSGURL tt sampleURLString (sampleOptions "out" "" ""))
           []).
Proof.
  pose proof (@X12_determineSGURL_returns_a_reached_url (list string) unit
                tt _ sampleURLString (sampleOptions "out" "" "") []) as H.
  cbv zeta in H. destruct H as (_ & H & _).
  split; [reflexivity | exact (H eq_refl)].
Defined.

Lemma X13_witness :
  runState
    (findSGBinaryAndConfigs sampleStat sampleURLString defaultSGURL
       (sampleOptions "out" "/my/sync_gateway" "/my/config.json")) [] =
  (("/my/sync_gateway"%string, "/my/config.json"%string), []).
Proof.
  apply (@X13_manual_binary_and_config_are_used (list string) _ sampleStat
           sampleURLString defaultSGURL
           (sampleOptions "out" "/my/sync_gateway" "/my/config.json") []).
  - simpl. discriminate.
  - simpl. discriminate.
Defined.

Lemma X14_witness :
  let opts := sampleOptions "out" "/my/sync_gateway" "" in
  let cmdLine :=
    CmdLine
      (snd (fst (runState
                   (getJSONOverHTTP
                      (sampleURLString defaultSGURL ++ "/_expvar")%string
                      opts {| CmdLine := [] |}) []))) in
  let out :=
    fst (runState
           (findSGBinaryAndConfigs sampleStat sampleURLString defaultSGURL
              opts) []) in
  (SGCollectOptions.SyncGatewayExecutable opts = ""%string \/
   SGCollectOptions.SyncGatewayConfig opts = ""%string) /\
  out = ("/usr/local/bin/sync_gateway"%string, "/etc/sg/basic.json"%string) /\
  (fst out = hd ""%string cmdLine \/
   (In (fst out) sgBinPaths /\
    exists w0 : list string,
      fst (runState (sampleStat (fst out)) w0) = None)) /\
  (snd out = ""%string \/
   In (snd out) (tl cmdLine) \/
   (In (snd out) bootstrapConfigLocations /\
    exists w0 : list string,
      fst (runState (sampleStat (snd out)) w0) = None)).
Proof.
  intros opts cmdLine out.
  split; [right; reflexivity|].
  split; [reflexivity|].
  exact (@X14_discovered_binary_and_config (list string) _ sampleStat
           sampleURLString defaultSGURL opts [] (or_intror eq_refl)).
Defined.
